(** * homai: the Zigbee host controller core (ASH, EZSP, ZCL, controller)

    A shallow embedding of [pkg/zigbee] and of the parts of [pkg/device] it
    uses.  Bytes and the other unsigned machine integers of the Go source are
    integers of [Z]; where the source can overflow, the wrap-around is written
    out ([u8], [u16]).  Go maps are [gmap]s, slices are lists, and a loop
    [for _, b := range data] over an accumulator is a [fold_left]. *)

From Stdlib Require Import ZArith Lia Bool List Ascii String SpecFloat.
From stdpp Require Import gmap strings list.
Import ListNotations.

Local Open Scope Z_scope.

(** ** Machine integers *)

Definition u8 (x : Z) : Z := x mod 256.
Definition u16 (x : Z) : Z := x mod 65536.

(** [binary.LittleEndian.Uint16] on the two bytes [lo], [hi]. *)
Definition le16 (lo hi : Z) : Z := Z.lor lo (Z.shiftl hi 8).

(** ** Errors

    Go errors are values; [fmt.Errorf] with the verb [%w] wraps a cause, and
    [errors.Is] walks the chain of causes.  The sentinels are those of
    [pkg/device/errors.go]; [ErrPort] stands for an error returned by the
    serial library.  Of a formatted message only the fixed text is kept. *)

Inductive error : Type :=
  | ErrNotFound
  | ErrTimeout
  | ErrNotConnected
  | ErrUnsupported
  | ErrValidation
  | ErrPort
  | ErrText (msg : string)
  | ErrWrap (msg : string) (cause : error).

Definition error_beq (x y : error) : bool :=
  match x, y with
  | ErrNotFound, ErrNotFound | ErrTimeout, ErrTimeout
  | ErrNotConnected, ErrNotConnected | ErrUnsupported, ErrUnsupported
  | ErrValidation, ErrValidation | ErrPort, ErrPort => true
  | _, _ => false
  end.

(** [errors.Is err target] for a sentinel [target]. *)
Fixpoint errorsIs (err target : error) : bool :=
  error_beq err target ||
  match err with
  | ErrWrap _ cause => errorsIs cause target
  | _ => false
  end.

Inductive result (A : Type) : Type :=
  | Ok (a : A)
  | Err (e : error).
Arguments Ok {A} a.
Arguments Err {A} e.

(** * Serial transport (the wrapper around the OS port)

    [tx] lists the buffers handed to [Write], in the order of the calls: it
    is what the layers above send.  On a port that was closed the call
    returns an error (and the bytes never reach the wire). *)

Record SerialPort : Type := mkSerialPort {
  tx : list (list Z);
  closed : bool
}.

Definition serialWrite (data : list Z) (s : SerialPort) : option error * SerialPort :=
  (if closed s then Some ErrPort else None,
   {| tx := tx s ++ [data]; closed := closed s |}).

Definition serialClose (s : SerialPort) : SerialPort :=
  {| tx := tx s; closed := true |}.

(** * ASH link layer ([pkg/zigbee/ash.go]) *)

Module ASH.

(** ** Protocol constants *)

Definition ashFlagByte : Z := 0x7E.
Definition ashEscapeByte : Z := 0x7D.
Definition ashXON : Z := 0x11.
Definition ashXOFF : Z := 0x13.
Definition ashFlipBit : Z := 0x20.
Definition ashCancelByte : Z := 0x1A.
Definition ashSubstitute : Z := 0x18.

Definition ashFrameData : Z := 0x00.
Definition ashFrameACK : Z := 0x80.
Definition ashFrameNAK : Z := 0xA0.
Definition ashFrameRST : Z := 0xC0.
Definition ashFrameRSTACK : Z := 0xC1.
Definition ashFrameERROR : Z := 0xC2.

Definition ashMaxFrameLen : Z := 256.

(** ** Byte stuffing *)

(** The condition of the [if] in [ashStuff]. *)
Definition isReserved (b : Z) : bool :=
  (b =? ashFlagByte) || (b =? ashEscapeByte) || (b =? ashXON) ||
  (b =? ashXOFF) || (b =? ashSubstitute) || (b =? ashCancelByte).

(** One iteration of the loop of [ashStuff]: [out] is the output so far. *)
Definition stuffStep (out : list Z) (b : Z) : list Z :=
  if isReserved b
  then out ++ [ashEscapeByte; Z.lxor b ashFlipBit]
  else out ++ [b].

Definition ashStuff (data : list Z) : list Z :=
  fold_left stuffStep data [].

(** One iteration of the loop of [ashUnstuff] on its two variables,
    [out] and [escaped]. *)
Definition unstuffStep (st : list Z * bool) (b : Z) : list Z * bool :=
  let '(out, escaped) := st in
  if escaped then (out ++ [Z.lxor b ashFlipBit], false)
  else if b =? ashEscapeByte then (out, true)
  else (out ++ [b], false).

Definition ashUnstuff (data : list Z) : list Z :=
  fst (fold_left unstuffStep data ([], false)).

(** ** CRC *)

(** The body of the inner loop of [crcCCITT]: one shift of the register. *)
Definition crcShift (crc : Z) : Z :=
  if negb (Z.land crc 0x8000 =? 0)
  then Z.lxor (u16 (Z.shiftl crc 1)) 0x1021
  else u16 (Z.shiftl crc 1).

(** The body of the outer loop: the byte is folded into the high half of
    the register, which is then shifted eight times. *)
Definition crcByte (crc : Z) (b : Z) : Z :=
  Nat.iter 8 crcShift (Z.lxor crc (u16 (Z.shiftl b 8))).

Definition crcCCITT (data : list Z) : Z :=
  fold_left crcByte data 0xFFFF.

(** ** Sequence numbers *)

Definition ashSeqLessThan (a b : Z) : bool :=
  let a := Z.land a 0x07 in
  let b := Z.land b 0x07 in
  let diff := Z.land (u8 (b - a)) 0x07 in
  (0 <? diff) && (diff <=? 4).

(** ** The layer

    [recvChan] is the buffered channel (capacity 16) towards EZSP, oldest
    payload first; [connChan] (capacity 1) is [true] when it holds a signal.
    The locks of the source protect single reads and writes and leave no
    trace in a sequential run. *)

Inductive ashState : Type :=
  | ashStateDisconnected
  | ashStateResetPending
  | ashStateConnected.

Definition ashState_beq (x y : ashState) : bool :=
  match x, y with
  | ashStateDisconnected, ashStateDisconnected
  | ashStateResetPending, ashStateResetPending
  | ashStateConnected, ashStateConnected => true
  | _, _ => false
  end.

Definition recvChanCap : nat := 16.

Record ASHLayer : Type := mkASHLayer {
  serial : SerialPort;
  state : ashState;
  sendSeq : Z;
  ackNum : Z;
  recvSeq : Z;
  pending : gmap Z (list Z);
  recvChan : list (list Z);
  connChan : bool;
  stopped : bool
}.

Definition NewASHLayer (s : SerialPort) : ASHLayer :=
  {| serial := s; state := ashStateDisconnected;
     sendSeq := 0; ackNum := 0; recvSeq := 0;
     pending := ∅; recvChan := []; connChan := false; stopped := false |}.

Definition setSerial (s : SerialPort) (a : ASHLayer) : ASHLayer :=
  {| serial := s; state := state a; sendSeq := sendSeq a; ackNum := ackNum a;
     recvSeq := recvSeq a; pending := pending a; recvChan := recvChan a;
     connChan := connChan a; stopped := stopped a |}.

Definition setState (st : ashState) (a : ASHLayer) : ASHLayer :=
  {| serial := serial a; state := st; sendSeq := sendSeq a; ackNum := ackNum a;
     recvSeq := recvSeq a; pending := pending a; recvChan := recvChan a;
     connChan := connChan a; stopped := stopped a |}.

Definition setSendSeq (n : Z) (a : ASHLayer) : ASHLayer :=
  {| serial := serial a; state := state a; sendSeq := n; ackNum := ackNum a;
     recvSeq := recvSeq a; pending := pending a; recvChan := recvChan a;
     connChan := connChan a; stopped := stopped a |}.

Definition setRecvSeq (n : Z) (a : ASHLayer) : ASHLayer :=
  {| serial := serial a; state := state a; sendSeq := sendSeq a; ackNum := ackNum a;
     recvSeq := n; pending := pending a; recvChan := recvChan a;
     connChan := connChan a; stopped := stopped a |}.

Definition setPending (p : gmap Z (list Z)) (a : ASHLayer) : ASHLayer :=
  {| serial := serial a; state := state a; sendSeq := sendSeq a; ackNum := ackNum a;
     recvSeq := recvSeq a; pending := p; recvChan := recvChan a;
     connChan := connChan a; stopped := stopped a |}.

Definition setRecvChan (q : list (list Z)) (a : ASHLayer) : ASHLayer :=
  {| serial := serial a; state := state a; sendSeq := sendSeq a; ackNum := ackNum a;
     recvSeq := recvSeq a; pending := pending a; recvChan := q;
     connChan := connChan a; stopped := stopped a |}.

(** [a.serial.Write(frame)]. *)
Definition write (frame : list Z) (a : ASHLayer) : option error * ASHLayer :=
  let '(err, s) := serialWrite frame (serial a) in (err, setSerial s a).

(** The frame of one control byte: control, CRC (big-endian), stuffed, flag.
    [sendRST], [sendACK] and [sendNAK] all build it this way. *)
Definition controlFrame (control : Z) : list Z :=
  let raw := [control] in
  let crc := crcCCITT raw in
  let raw := raw ++ [u8 (Z.shiftr crc 8); u8 (Z.land crc 0xFF)] in
  ashStuff raw ++ [ashFlagByte].

Definition buildDataFrame (control : Z) (payload : list Z) : list Z :=
  let raw := [control] ++ payload in
  let crc := crcCCITT raw in
  let raw := raw ++ [u8 (Z.shiftr crc 8); u8 (Z.land crc 0xFF)] in
  let frame := ashStuff raw in
  frame ++ [ashFlagByte].

(** [sendRST]: the cancel byte, then the RST frame; the first failing
    write ends it. *)
Definition sendRST (a : ASHLayer) : option error * ASHLayer :=
  match write [ashCancelByte] a with
  | (Some err, a) => (Some err, a)
  | (None, a) => write (controlFrame ashFrameRST) a
  end.

Definition sendACK (a : ASHLayer) : option error * ASHLayer :=
  let ack := recvSeq a in
  let control := Z.lor ashFrameACK (Z.land ack 0x07) in
  write (controlFrame control) a.

(** [sendNAK] logs a write error and returns nothing. *)
Definition sendNAK (a : ASHLayer) : ASHLayer :=
  let ack := recvSeq a in
  let control := Z.lor ashFrameNAK (Z.land ack 0x07) in
  snd (write (controlFrame control) a).

Definition SendData (payload : list Z) (a : ASHLayer) : option error * ASHLayer :=
  if negb (ashState_beq (state a) ashStateConnected)
  then (Some (ErrText "ASH not connected"), a)
  else
    let seq := sendSeq a in
    let a := setSendSeq (Z.land (u8 (sendSeq a + 1)) 0x07) a in
    let ack := recvSeq a in
    let control := Z.lor (u8 (Z.shiftl seq 4)) (Z.land ack 0x07) in
    let frame := buildDataFrame control payload in
    let a := setPending (<[seq := frame]> (pending a)) a in
    match write frame a with
    | (Some err, a) => (Some (ErrWrap "write DATA frame" err), a)
    | (None, a) => (None, a)
    end.

(** The loop of [handleData] and [handleACK] over the pending table: every
    sequence number below the acknowledged one is deleted. *)
Definition dropAcked (ack : Z) (p : gmap Z (list Z)) : gmap Z (list Z) :=
  filter (fun kv => ashSeqLessThan kv.1 ack = false) p.

(** The non-blocking send [select { case a.recvChan <- ezspData: default: }]:
    a full channel drops the payload. *)
Definition offerRecv (ezspData : list Z) (a : ASHLayer) : ASHLayer :=
  if (length (recvChan a) <? recvChanCap)%nat
  then setRecvChan (recvChan a ++ [ezspData]) a
  else a.

(** [handleData]; [None] is the run-time panic of [payload[0]] on an empty
    slice, which [processFrame] excludes. *)
Definition handleData (payload : list Z) (a : ASHLayer) : option ASHLayer :=
  match payload with
  | [] => None
  | control :: ezspData =>
    let frmNum := Z.land (Z.shiftr control 4) 0x07 in
    let npcAck := Z.land control 0x07 in
    let a := setPending (dropAcked npcAck (pending a)) a in
    let expected := recvSeq a in
    if frmNum =? expected then
      let a := setRecvSeq (Z.land (u8 (expected + 1)) 0x07) a in
      let a := snd (sendACK a) in
      Some (offerRecv ezspData a)
    else
      Some (sendNAK a)
  end.

Definition handleACK (control : Z) (a : ASHLayer) : ASHLayer :=
  let ackNum := Z.land control 0x07 in
  setPending (dropAcked ackNum (pending a)) a.

Definition handleNAK (control : Z) (a : ASHLayer) : ASHLayer :=
  let nakNum := Z.land control 0x07 in
  match pending a !! nakNum with
  | Some frame => snd (write frame a)
  | None => a
  end.

Definition handleRSTACK (a : ASHLayer) : ASHLayer :=
  {| serial := serial a; state := ashStateConnected;
     sendSeq := 0; ackNum := 0; recvSeq := 0;
     pending := ∅; recvChan := recvChan a;
     connChan := true; stopped := stopped a |}.

(** [processFrame]: the frame between two flag bytes. *)
Definition processFrame (stuffed : list Z) (a : ASHLayer) : option ASHLayer :=
  let raw := ashUnstuff stuffed in
  if (length raw <? 3)%nat then Some a
  else
    let payload := take (length raw - 2) raw in
    let receivedCRC :=
      Z.lor (u16 (Z.shiftl (nth (length raw - 2) raw 0) 8))
            (nth (length raw - 1) raw 0) in
    let computedCRC := crcCCITT payload in
    if negb (receivedCRC =? computedCRC) then Some a
    else
      let control := nth 0 payload 0 in
      if control =? ashFrameRSTACK then Some (handleRSTACK a)
      else if control =? ashFrameERROR then Some a
      else if Z.land control 0x80 =? ashFrameData then handleData payload a
      else if Z.land control 0xE0 =? ashFrameACK then Some (handleACK control a)
      else if Z.land control 0xE0 =? ashFrameNAK then Some (handleNAK control a)
      else Some a.

End ASH.

(** * ZCL codec ([zcl.go]) *)

Module ZCL.

Definition zclClusterOnOff : Z := 0x0006.
Definition zclClusterLevelControl : Z := 0x0008.

Definition zclCmdOff : Z := 0x00.
Definition zclCmdOn : Z := 0x01.
Definition zclCmdToggle : Z := 0x02.

Definition zclCmdMoveToLevel : Z := 0x00.
Definition zclCmdMoveToLevelWithOnOff : Z := 0x04.

Definition zclFrameTypeGlobal : Z := 0x00.
Definition zclFrameTypeClusterSpecific : Z := 0x01.

Definition zclGlobalReadAttributes : Z := 0x00.
Definition zclGlobalReadAttributesResponse : Z := 0x01.

Definition zclDirectionClientToServer : Z := 0x00.
Definition zclDirectionServerToClient : Z := 0x08.

Definition zclProfileHA : Z := 0x0104.

Definition zclAttrOnOff : Z := 0x0000.
Definition zclAttrCurrentLevel : Z := 0x0000.

(** The builders read and advance the package variable [zclSeqCounter]; it
    is passed in and returned next to the frame. *)
Definition nextZCLSeq (zclSeqCounter : Z) : Z * Z :=
  let zclSeqCounter := u8 (zclSeqCounter + 1) in
  (zclSeqCounter, zclSeqCounter).

Definition EncodeZCLClusterCommand (commandID : Z) (payload : list Z)
    (zclSeqCounter : Z) : list Z * Z :=
  let FrameControl := Z.lor zclFrameTypeClusterSpecific zclDirectionClientToServer in
  let '(SeqNumber, zclSeqCounter) := nextZCLSeq zclSeqCounter in
  ([FrameControl] ++ [SeqNumber] ++ [commandID] ++ payload, zclSeqCounter).

Definition EncodeZCLGlobalCommand (commandID : Z) (payload : list Z)
    (zclSeqCounter : Z) : list Z * Z :=
  let FrameControl := Z.lor zclFrameTypeGlobal zclDirectionClientToServer in
  let '(SeqNumber, zclSeqCounter) := nextZCLSeq zclSeqCounter in
  ([FrameControl] ++ [SeqNumber] ++ [commandID] ++ payload, zclSeqCounter).

Definition BuildOnOffCommand (cmd : Z) (zclSeqCounter : Z) : list Z * Z :=
  EncodeZCLClusterCommand cmd [] zclSeqCounter.

Definition BuildMoveToLevelCommand (level transitionTime : Z)
    (zclSeqCounter : Z) : list Z * Z :=
  let payload := [level; u8 transitionTime; u8 (Z.shiftr transitionTime 8)] in
  EncodeZCLClusterCommand zclCmdMoveToLevelWithOnOff payload zclSeqCounter.

Definition BuildReadAttributesCommand (attrIDs : list Z)
    (zclSeqCounter : Z) : list Z * Z :=
  let payload := flat_map (fun id => [u8 id; u8 (Z.shiftr id 8)]) attrIDs in
  EncodeZCLGlobalCommand zclGlobalReadAttributes payload zclSeqCounter.

(** [zclDataTypeLength dataType data], [data] being the bytes after the
    type byte. *)
Definition zclDataTypeLength (dataType : Z) (data : list Z) : Z :=
  if dataType =? 0x10 then 1
  else if dataType =? 0x20 then 1
  else if dataType =? 0x21 then 2
  else if dataType =? 0x22 then 3
  else if dataType =? 0x23 then 4
  else if dataType =? 0x28 then 1
  else if dataType =? 0x29 then 2
  else if dataType =? 0x30 then 1
  else if dataType =? 0x31 then 2
  else if dataType =? 0x42 then
    if (length data <? 1)%nat then -1 else 1 + nth 0 data 0
  else -1.

(** The loop of [ParseReadAttributesResponse] on its variables [offset] and
    [result].  Every iteration that goes on advances [offset] by three bytes
    at least, so the loop runs fewer than [length data] times: [fuel] counts
    the iterations left. *)
Fixpoint parseLoop (fuel : nat) (data : list Z) (offset : nat)
    (result : gmap Z (list Z)) : gmap Z (list Z) :=
  match fuel with
  | O => result
  | S fuel =>
    if (offset + 4 <=? length data)%nat then
      let attrID := le16 (nth offset data 0) (nth (offset + 1) data 0) in
      let offset := (offset + 2)%nat in
      let status := nth offset data 0 in
      let offset := (offset + 1)%nat in
      if negb (status =? 0x00) then parseLoop fuel data offset result
      else if (length data <=? offset)%nat then result
      else
        let dataType := nth offset data 0 in
        let offset := (offset + 1)%nat in
        let valueLen := zclDataTypeLength dataType (drop offset data) in
        if (valueLen <=? 0) || (Z.of_nat (length data) <? Z.of_nat offset + valueLen)
        then result
        else
          let value := take (Z.to_nat valueLen) (drop offset data) in
          parseLoop fuel data (offset + Z.to_nat valueLen)%nat
                    (<[attrID := value]> result)
    else result
  end.

Definition ParseReadAttributesResponse (data : list Z) : gmap Z (list Z) :=
  parseLoop (length data) data 0 ∅.

End ZCL.

(** * EZSP framing layer ([pkg/zigbee/ezsp.go]) *)

Module EZSP.

Definition ezspVersion : Z := 0x0000.
Definition ezspSendUnicast : Z := 0x0034.

Definition ezspTrustCenterJoinHandler : Z := 0x0024.
Definition ezspIncomingMessageHandler : Z := 0x0045.
Definition ezspMessageSentHandler : Z := 0x003F.
Definition ezspStackStatusHandler : Z := 0x0019.

Definition ezspProtocolVersion : Z := 13.

Definition emberSuccess : Z := 0x00.

Definition emberApsOptionRetry : Z := 0x0040.
Definition emberApsOptionEnableRouteDiscovery : Z := 0x0100.

(** What the [select] at the end of [SendCommand] observes: the parameters
    that the reader goroutine put on the response channel of the frame id,
    the five-second timer, or the stop channel. *)
Inductive reply : Type :=
  | Reply (params : list Z)
  | NoReply
  | Stopped.

(** [ncp] lists what the waits of the commands to come will observe, in
    order; a command issued when the list is empty times out.  The response
    channel of a frame id is registered on entry to [SendCommand] and
    deleted on return, so it is not part of the state between calls. *)
Record EZSPLayer : Type := mkEZSPLayer {
  ash : ASH.ASHLayer;
  seq : Z;
  extendedFormat : bool;
  ncp : list reply
}.

Definition setAsh (a : ASH.ASHLayer) (e : EZSPLayer) : EZSPLayer :=
  {| ash := a; seq := seq e; extendedFormat := extendedFormat e; ncp := ncp e |}.

Definition setSeq (n : Z) (e : EZSPLayer) : EZSPLayer :=
  {| ash := ash e; seq := n; extendedFormat := extendedFormat e; ncp := ncp e |}.

Definition setExtendedFormat (b : bool) (e : EZSPLayer) : EZSPLayer :=
  {| ash := ash e; seq := seq e; extendedFormat := b; ncp := ncp e |}.

Definition setNcp (l : list reply) (e : EZSPLayer) : EZSPLayer :=
  {| ash := ash e; seq := seq e; extendedFormat := extendedFormat e; ncp := l |}.

(** The EZSP frame that [SendCommand] builds. *)
Definition commandFrame (extended : bool) (seq frameID : Z) (params : list Z) : list Z :=
  if extended
  then [seq] ++ [0x01; 0x00] ++ [u8 frameID; u8 (Z.shiftr frameID 8)] ++ params
  else [seq] ++ [0x00] ++ [u8 frameID] ++ params.

Definition SendCommand (frameID : Z) (params : list Z) (e : EZSPLayer)
    : result (list Z) * EZSPLayer :=
  let seq0 := seq e in
  let e := setSeq (u8 (seq e + 1)) e in
  let frame := commandFrame (extendedFormat e) seq0 frameID params in
  match ASH.SendData frame (ash e) with
  | (Some err, a) => (Err (ErrWrap "send EZSP command" err), setAsh a e)
  | (None, a) =>
    let e := setAsh a e in
    match ncp e with
    | Reply resp :: rest => (Ok resp, setNcp rest e)
    | NoReply :: rest =>
        (Err (ErrText "timeout waiting for EZSP response"), setNcp rest e)
    | Stopped :: rest => (Err (ErrText "stopped"), setNcp rest e)
    | [] => (Err (ErrText "timeout waiting for EZSP response"), e)
    end
  end.

(** The tail of [NegotiateVersion], from the length check on. *)
Definition versionResult (resp : list Z) (e : EZSPLayer)
    : result (Z * Z * Z) * EZSPLayer :=
  if (length resp <? 4)%nat
  then (Err (ErrText "version response too short"), e)
  else
    let protocolVersion := nth 0 resp 0 in
    let stackType := nth 1 resp 0 in
    let stackVersion := le16 (nth 2 resp 0) (nth 3 resp 0) in
    let e := if 8 <=? protocolVersion then setExtendedFormat true e else e in
    (Ok (protocolVersion, stackType, stackVersion), e).

Definition NegotiateVersion (e : EZSPLayer) : result (Z * Z * Z) * EZSPLayer :=
  let desiredVersion := ezspProtocolVersion in
  let e := setSeq 0 e in
  match SendCommand ezspVersion [desiredVersion] e with
  | (Err err, e) => (Err (ErrWrap "version negotiation" err), e)
  | (Ok resp, e) =>
    if (length resp =? 1)%nat then
      let ncpVersion := nth 0 resp 0 in
      let e := if 8 <=? ncpVersion then setExtendedFormat true e else e in
      match SendCommand ezspVersion [ncpVersion] e with
      | (Err err, e) => (Err (ErrWrap "version negotiation retry" err), e)
      | (Ok resp, e) => versionResult resp e
      end
    else versionResult resp e
  end.

(** The parameters of the [sendUnicast] command, as [SendUnicast] lays
    them out: the APS frame, then tag, length and message. *)
Definition unicastParams (nodeID profileID clusterID srcEndpoint dstEndpoint : Z)
    (payload : list Z) : list Z :=
  let options := Z.lor emberApsOptionRetry emberApsOptionEnableRouteDiscovery in
  let apsFrame :=
    [u8 profileID; u8 (Z.shiftr profileID 8)] ++
    [u8 clusterID; u8 (Z.shiftr clusterID 8)] ++
    [srcEndpoint] ++ [dstEndpoint] ++
    [u8 options; u8 (Z.shiftr options 8)] ++
    [0x00; 0x00] ++ [0x00] in
  [0x00] ++ [u8 nodeID; u8 (Z.shiftr nodeID 8)] ++ apsFrame ++
  [0x01] ++ [u8 (Z.of_nat (length payload))] ++ payload.

Definition SendUnicast (nodeID profileID clusterID srcEndpoint dstEndpoint : Z)
    (payload : list Z) (e : EZSPLayer) : option error * EZSPLayer :=
  let params :=
    unicastParams nodeID profileID clusterID srcEndpoint dstEndpoint payload in
  match SendCommand ezspSendUnicast params e with
  | (Err err, e) => (Some err, e)
  | (Ok resp, e) =>
    if (length resp <? 1)%nat || negb (nth 0 resp 0 =? emberSuccess)
    then (Some (ErrText "sendUnicast failed"), e)
    else (None, e)
  end.

End EZSP.

(** * Dynamic values and devices ([pkg/device]) *)

Module Device.

(** The dynamic types that a value of a [map[string]any] is inspected for
    in this package.  A [float64] is its IEEE 754 decomposition. *)
Inductive any : Type :=
  | AString (s : string)
  | AInt (n : Z)
  | AFloat64 (f : spec_float)
  | AJsonNumber (s : string)
  | ABool (b : bool)
  | ANil.

Abbreviation DeviceState := (gmap string any).

(** The JSON documents of this package, before marshalling. *)
Inductive json : Type :=
  | JString (s : string)
  | JInt (n : Z)
  | JStrings (l : list string)
  | JObject (fields : members)
with members : Type :=
  | JEnd
  | JMember (key : string) (value : json) (rest : members).

Record Device : Type := mkDevice {
  ID : string;
  Name : string;
  Type_ : string;
  Protocol : string;
  Manufacturer : string;
  Model : string;
  StateSchema : option json
}.

Record DiscoveryEvent : Type := mkDiscoveryEvent {
  EventType : string;
  EventDevice : option Device;
  Timestamp : Z
}.

Definition ProtocolZigbee : string := "zigbee".
Definition DeviceTypeLight : string := "light".

End Device.

(** * Controller session ([pkg/zigbee/controller.go]) *)

Module Controller.

Import Device.

Record KnownDevice : Type := mkKnownDevice {
  IEEEAddress : list Z;
  NodeID : Z;
  DeviceType : string;
  Endpoint : Z;
  State : gmap string any
}.

(** [devices] maps the IEEE string to the device; a subscriber is its
    buffered channel (capacity 16), oldest event first.  [zclSeqCounter] is
    the package variable of the ZCL codec, which only the controller
    advances. *)
Record Controller : Type := mkController {
  ezsp : EZSP.EZSPLayer;
  devices : gmap string KnownDevice;
  subscribers : list (list DiscoveryEvent);
  connected : bool;
  zclSeqCounter : Z
}.

Definition setEzsp (e : EZSP.EZSPLayer) (c : Controller) : Controller :=
  {| ezsp := e; devices := devices c; subscribers := subscribers c;
     connected := connected c; zclSeqCounter := zclSeqCounter c |}.

Definition setDevices (d : gmap string KnownDevice) (c : Controller) : Controller :=
  {| ezsp := ezsp c; devices := d; subscribers := subscribers c;
     connected := connected c; zclSeqCounter := zclSeqCounter c |}.

Definition setSubscribers (s : list (list DiscoveryEvent)) (c : Controller) : Controller :=
  {| ezsp := ezsp c; devices := devices c; subscribers := s;
     connected := connected c; zclSeqCounter := zclSeqCounter c |}.

Definition setZclSeqCounter (n : Z) (c : Controller) : Controller :=
  {| ezsp := ezsp c; devices := devices c; subscribers := subscribers c;
     connected := connected c; zclSeqCounter := n |}.

Definition setKdState (st : gmap string any) (kd : KnownDevice) : KnownDevice :=
  {| IEEEAddress := IEEEAddress kd; NodeID := NodeID kd;
     DeviceType := DeviceType kd; Endpoint := Endpoint kd; State := st |}.

(** ** Helpers *)

Definition hexDigit (n : Z) : string :=
  match n with
  | 0 => "0" | 1 => "1" | 2 => "2" | 3 => "3" | 4 => "4" | 5 => "5"
  | 6 => "6" | 7 => "7" | 8 => "8" | 9 => "9" | 10 => "a" | 11 => "b"
  | 12 => "c" | 13 => "d" | 14 => "e" | _ => "f"
  end%string.

(** The verb [%02x] on a byte. *)
Definition hex02 (b : Z) : string :=
  (hexDigit (b / 16) ++ hexDigit (b mod 16))%string.

Definition formatIEEE (addr : list Z) : string :=
  (hex02 (nth 7 addr 0) ++ ":" ++ hex02 (nth 6 addr 0) ++ ":" ++
   hex02 (nth 5 addr 0) ++ ":" ++ hex02 (nth 4 addr 0) ++ ":" ++
   hex02 (nth 3 addr 0) ++ ":" ++ hex02 (nth 2 addr 0) ++ ":" ++
   hex02 (nth 1 addr 0) ++ ":" ++ hex02 (nth 0 addr 0))%string.

Definition boolToOnOff (b : bool) : string :=
  if b then "ON" else "OFF".

(** [strings.ToUpper] on the bytes of the string: the letters a to z are
    raised, every other byte is kept.  On a string with a rune outside
    ASCII the library maps that rune as well, to a rune outside ASCII or
    to I or S; such a string is none of ON, OFF and TOGGLE before and after,
    and only these three results are ever stored. *)
Definition upperByte (c : ascii) : ascii :=
  let n := nat_of_ascii c in
  if ((97 <=? n) && (n <=? 122))%nat then ascii_of_nat (n - 32) else c.

Fixpoint ToUpper (s : string) : string :=
  match s with
  | EmptyString => EmptyString
  | String c r => String (upperByte c) (ToUpper r)
  end.

(** [uint8(v)] on a [float64]: the fraction is dropped and the integer
    reduced modulo 256 (as compiled for amd64; the language leaves the
    conversion of a value outside 0..255 to the implementation). *)
Definition float64ToUint8 (f : spec_float) : Z :=
  match f with
  | S754_finite s m e =>
      let mag := if 0 <=? e then Z.pos m * 2 ^ e else Z.pos m / 2 ^ (- e) in
      u8 (if s then - mag else mag)
  | _ => 0
  end.

(** [json.Number.Int64], which is [strconv.ParseInt(s, 10, 64)]: the value
    is 0 on a syntax error and the nearest bound when out of range. *)
Definition digitVal (c : ascii) : option Z :=
  let n := Z.of_nat (nat_of_ascii c) in
  if (48 <=? n) && (n <=? 57) then Some (n - 48) else None.

Fixpoint parseDigits (s : string) (acc : Z) : option Z :=
  match s with
  | EmptyString => Some acc
  | String c r =>
      match digitVal c with
      | Some d => parseDigits r (10 * acc + d)
      | None => None
      end
  end.

Definition parseInt64 (s : string) : Z :=
  let '(neg, body) :=
    match s with
    | String "+"%char r => (false, r)
    | String "-"%char r => (true, r)
    | _ => (false, s)
    end in
  match body with
  | EmptyString => 0
  | _ =>
    match parseDigits body 0 with
    | None => 0
    | Some n =>
        if neg then (if 2 ^ 63 <? n then - 2 ^ 63 else - n)
        else (if 2 ^ 63 - 1 <? n then 2 ^ 63 - 1 else n)
    end
  end.

Definition lightStateSchema : json :=
  JObject
    (JMember "type" (JString "object")
    (JMember "properties"
      (JObject
        (JMember "state"
          (JObject
            (JMember "type" (JString "string")
            (JMember "enum" (JStrings ["ON"; "OFF"; "TOGGLE"]%string) JEnd)))
        (JMember "brightness"
          (JObject
            (JMember "type" (JString "integer")
            (JMember "minimum" (JInt 0)
            (JMember "maximum" (JInt 254) JEnd))))
         JEnd)))
     JEnd)).

Definition knownToDevice (ieeeStr : string) (kd : KnownDevice) : Device :=
  {| ID := ieeeStr; Name := ieeeStr; Type_ := DeviceType kd;
     Protocol := ProtocolZigbee; Manufacturer := "Unknown"; Model := "Unknown";
     StateSchema := Some lightStateSchema |}.

(** ** Event publication *)

Definition subscriberCap : nat := 16.

(** The non-blocking send to one subscriber: a full channel drops. *)
Definition offerEvent (evt : DiscoveryEvent) (ch : list DiscoveryEvent)
    : list DiscoveryEvent :=
  if (length ch <? subscriberCap)%nat then ch ++ [evt] else ch.

Definition publishEvent (evt : DiscoveryEvent) (c : Controller) : Controller :=
  setSubscribers (map (offerEvent evt) (subscribers c)) c.

(** ** Callbacks *)

(** [now] is the value of [time.Now()]. *)
Definition handleTrustCenterJoin (data : list Z) (now : Z) (c : Controller)
    : Controller :=
  if (length data <? 11)%nat then c
  else
    let nodeID := le16 (nth 0 data 0) (nth 1 data 0) in
    let ieee := take 8 (drop 2 data) in
    let status := nth 10 data 0 in
    let ieeeStr := formatIEEE ieee in
    if status =? 3 then
      let c := setDevices (delete ieeeStr (devices c)) c in
      publishEvent
        {| EventType := "device_left";
           EventDevice :=
             Some {| ID := ieeeStr; Name := ""; Type_ := ""; Protocol := "";
                     Manufacturer := ""; Model := ""; StateSchema := None |};
           Timestamp := now |} c
    else
      let kd :=
        {| IEEEAddress := ieee; NodeID := nodeID;
           DeviceType := DeviceTypeLight; Endpoint := 1; State := ∅ |} in
      let c := setDevices (<[ieeeStr := kd]> (devices c)) c in
      let dev := knownToDevice ieeeStr kd in
      publishEvent
        {| EventType := "device_joined"; EventDevice := Some dev;
           Timestamp := now |} c.


(** ** SetDeviceState *)

(** The [switch strings.ToUpper(strVal)]; [None] is its default case. *)
Definition onOffCommand (strVal : string) : option Z :=
  let up := ToUpper strVal in
  if (up =? "ON")%string then Some ZCL.zclCmdOn
  else if (up =? "OFF")%string then Some ZCL.zclCmdOff
  else if (up =? "TOGGLE")%string then Some ZCL.zclCmdToggle
  else None.

(** The block under [// Handle "state" field (On/Off)].  [kd] is the
    device found under [id]; the table holds a pointer to it, so the write
    to [kd.State] is a write to the entry of the table. *)
Definition setOnOff (id : string) (kd : KnownDevice) (state : gmap string any)
    (c : Controller) : result KnownDevice * Controller :=
  match state !! "state"%string with
  | Some (AString strVal) =>
    let up := ToUpper strVal in
    match onOffCommand strVal with
    | None => (Err (ErrWrap "invalid state value" ErrValidation), c)
    | Some cmd =>
      let '(payload, n) := ZCL.BuildOnOffCommand cmd (zclSeqCounter c) in
      let c := setZclSeqCounter n c in
      match EZSP.SendUnicast (NodeID kd) ZCL.zclProfileHA ZCL.zclClusterOnOff
                             1 (Endpoint kd) payload (ezsp c) with
      | (Some err, e) => (Err (ErrWrap "send on/off command" err), setEzsp e c)
      | (None, e) =>
        let c := setEzsp e c in
        let kd := setKdState (<["state"%string := AString up]> (State kd)) kd in
        (Ok kd, setDevices (<[id := kd]> (devices c)) c)
      end
    end
  | _ => (Ok kd, c)
  end.

(** The type switch on the brightness value; [None] is its default case. *)
Definition brightnessLevel (brightnessVal : any) : option Z :=
  match brightnessVal with
  | AFloat64 v => Some (float64ToUint8 v)
  | AInt v => Some (u8 v)
  | AJsonNumber v => Some (u8 (parseInt64 v))
  | _ => None
  end.

(** The block under [// Handle "brightness" field (Level Control)]. *)
Definition setBrightness (id : string) (kd : KnownDevice) (state : gmap string any)
    (c : Controller) : result KnownDevice * Controller :=
  match state !! "brightness"%string with
  | Some brightnessVal =>
    match brightnessLevel brightnessVal with
    | None => (Err (ErrWrap "invalid brightness type" ErrValidation), c)
    | Some level =>
      let '(payload, n) := ZCL.BuildMoveToLevelCommand level 10 (zclSeqCounter c) in
      let c := setZclSeqCounter n c in
      match EZSP.SendUnicast (NodeID kd) ZCL.zclProfileHA ZCL.zclClusterLevelControl
                             1 (Endpoint kd) payload (ezsp c) with
      | (Some err, e) => (Err (ErrWrap "send level command" err), setEzsp e c)
      | (None, e) =>
        let c := setEzsp e c in
        let kd := setKdState (<["brightness"%string := AInt level]> (State kd)) kd in
        (Ok kd, setDevices (<[id := kd]> (devices c)) c)
      end
    end
  | None => (Ok kd, c)
  end.

Definition SetDeviceState (id : string) (state : gmap string any) (c : Controller)
    : result (gmap string any) * Controller :=
  match devices c !! id with
  | None => (Err ErrNotFound, c)
  | Some kd =>
    match setOnOff id kd state c with
    | (Err err, c) => (Err err, c)
    | (Ok kd, c) =>
      match setBrightness id kd state c with
      | (Err err, c) => (Err err, c)
      | (Ok kd, c) => (Ok (State kd), c)
      end
    end
  end.

End Controller.

(** * Reference definitions

    [crcBitwise] is the CRC as the specification words it: the register
    starts at [0xFFFF], the message bits enter most significant bit first,
    and the generator polynomial is [0x1021].  It follows the words of the
    specification, not the source, and is compared with [ASH.crcCCITT]
    below. *)

Module Spec.

Definition crcPoly : Z := 0x1021.
Definition crcInit : Z := 0xFFFF.

(** One message bit [m] enters the register. *)
Definition crcBit (reg : Z) (m : bool) : Z :=
  let top := xorb (Z.testbit reg 15) m in
  let reg := (2 * reg) mod 2 ^ 16 in
  if top then Z.lxor reg crcPoly else reg.

Definition bitsMSB (b : Z) : list bool :=
  map (Z.testbit b) [7; 6; 5; 4; 3; 2; 1; 0].

Definition crcBitwise (data : list Z) : Z :=
  fold_left crcBit (flat_map bitsMSB data) crcInit.

End Spec.

(** * Auxiliary definitions of the proofs *)

Module Aux.

Import ASH Device Controller.

(** What [ashStuff] emits for one byte. *)
Definition stuffByte (b : Z) : list Z :=
  if isReserved b then [ashEscapeByte; Z.lxor b ashFlipBit] else [b].

(** A 16-bit register shifted left by one. *)
Definition shl16 (x : Z) : Z := u16 (2 * x).

(** The [n] top bits of a 16-bit register, highest first. *)
Fixpoint topBits (n : nat) (x : Z) : list bool :=
  match n with
  | O => []
  | S n => Z.testbit x 15 :: topBits n (shl16 x)
  end.




End Aux.

(** * Concrete sessions used in the examples *)

Module Scenario.

Import Device Controller.

Definition port : SerialPort := {| tx := []; closed := false |}.

(** The link after the reset handshake. *)
Definition link : ASH.ASHLayer := ASH.handleRSTACK (ASH.NewASHLayer port).

(** The link expecting frame 3 from the NCP. *)
Definition linkExpecting3 : ASH.ASHLayer := ASH.setRecvSeq 3 link.

(** The link whose queue towards EZSP holds sixteen undelivered payloads. *)
Definition linkQueueFull : ASH.ASHLayer :=
  ASH.setRecvChan (replicate 16 [0x00; 0x80; 0x19; 0x90]) link.


(** An EZSP layer after a negotiation of version 8 or more. *)
Definition extended (replies : list EZSP.reply) : EZSP.EZSPLayer :=
  {| EZSP.ash := link; EZSP.seq := 0; EZSP.extendedFormat := true;
     EZSP.ncp := replies |}.

Definition ieee : list Z := [0x11; 0x22; 0x33; 0x44; 0x55; 0x66; 0x77; 0x88].

Definition light : KnownDevice :=
  {| IEEEAddress := ieee; NodeID := 0x1234; DeviceType := DeviceTypeLight;
     Endpoint := 1; State := ∅ |}.

(** A controller with one light and one subscriber. *)
Definition home (replies : list EZSP.reply) : Controller :=
  {| ezsp := extended replies;
     devices := {[ formatIEEE ieee := light ]};
     subscribers := [[]]; connected := true; zclSeqCounter := 0 |}.


End Scenario.

(** * ASH link layer, continued: the read loop and the reset handshake *)

Module ASHLoop.

Import ASH.

(** One pass of the body of [readLoop] for a byte [b] that [ReadByte]
    returned; [buf] is the accumulator of the loop.  [None] is a panic
    inside [processFrame].  A failed read changes nothing and is not a
    pass. *)
Definition readByte (b : Z) (st : list Z * ASHLayer) : option (list Z * ASHLayer) :=
  let '(buf, a) := st in
  if b =? ashCancelByte then Some ([], a)
  else if b =? ashSubstitute then Some ([], a)
  else if (b =? ashXON) || (b =? ashXOFF) then Some (buf, a)
  else if b =? ashFlagByte then
    if (0 <? length buf)%nat then
      match processFrame buf a with
      | Some a => Some ([], a)
      | None => None
      end
    else Some (buf, a)
  else
    let buf := buf ++ [b] in
    if ashMaxFrameLen <? Z.of_nat (length buf) then Some ([], a)
    else Some (buf, a).

(** The read loop over the bytes it reads, in order. *)
Fixpoint readBytes (bytes : list Z) (st : list Z * ASHLayer)
    : option (list Z * ASHLayer) :=
  match bytes with
  | [] => Some st
  | b :: rest =>
    match readByte b st with
    | Some st => readBytes rest st
    | None => None
    end
  end.

Definition setConnChan (b : bool) (a : ASHLayer) : ASHLayer :=
  {| serial := serial a; state := state a; sendSeq := sendSeq a; ackNum := ackNum a;
     recvSeq := recvSeq a; pending := pending a; recvChan := recvChan a;
     connChan := b; stopped := stopped a |}.

Definition setStopped (b : bool) (a : ASHLayer) : ASHLayer :=
  {| serial := serial a; state := state a; sendSeq := sendSeq a; ackNum := ackNum a;
     recvSeq := recvSeq a; pending := pending a; recvChan := recvChan a;
     connChan := connChan a; stopped := b |}.

(** The [select] that ends [Connect] and [Reset].  [incoming] is what the
    read loop takes from the port while the caller waits, up to the moment
    the [select] fires: then a signal on [connChan] is taken and the call
    succeeds; with no signal the call fails, as stopped when the layer was
    closed and on the five-second timer otherwise.  (On a closed layer
    that holds a signal as well Go may take either case; the first is
    taken here.) *)
Definition awaitRSTACK (timeoutText : string) (incoming : list Z)
    (st : list Z * ASHLayer) : option (option error * (list Z * ASHLayer)) :=
  match readBytes incoming st with
  | None => None
  | Some (buf, a) =>
    if connChan a then Some (None, (buf, setConnChan false a))
    else if stopped a then Some (Some (ErrText "stopped"), (buf, a))
    else Some (Some (ErrText timeoutText), (buf, a))
  end.

(** [Connect]: the read loop starts with an empty accumulator. *)
Definition Connect (incoming : list Z) (a : ASHLayer)
    : option (option error * (list Z * ASHLayer)) :=
  let a := setState ashStateResetPending a in
  match sendRST a with
  | (Some err, a) => Some (Some (ErrWrap "send RST" err), ([], a))
  | (None, a) => awaitRSTACK "timeout waiting for RSTACK" incoming ([], a)
  end.

(** [Reset], on a layer whose read loop is running with accumulator [buf]. *)
Definition Reset (incoming : list Z) (st : list Z * ASHLayer)
    : option (option error * (list Z * ASHLayer)) :=
  let '(buf, a) := st in
  let a := setState ashStateResetPending a in
  let a := setConnChan false a in
  match sendRST a with
  | (Some err, a) => Some (Some (ErrWrap "send RST" err), (buf, a))
  | (None, a) =>
      awaitRSTACK "timeout waiting for RSTACK after reset" incoming (buf, a)
  end.

Definition IsConnected (a : ASHLayer) : bool :=
  ashState_beq (state a) ashStateConnected.

Definition Close (a : ASHLayer) : ASHLayer :=
  if negb (stopped a) then setStopped true a else a.

End ASHLoop.

(** * EZSP framing layer, continued: dispatch and the command set *)

Module EZSPOps.

Import EZSP.

Definition ezspSetConfigurationValue : Z := 0x0053.
Definition ezspGetNetworkParameters : Z := 0x0028.
Definition ezspNetworkInit : Z := 0x0017.
Definition ezspFormNetwork : Z := 0x001E.
Definition ezspPermitJoining : Z := 0x0022.
Definition ezspGetEUI64 : Z := 0x0026.

Definition ezspConfigStackProfile : Z := 0x0C.
Definition ezspConfigSecurityLevel : Z := 0x0D.
Definition ezspConfigMaxEndDeviceChildren : Z := 0x03.
Definition ezspConfigMaxHops : Z := 0x10.
Definition ezspConfigSourceRouteTableSize : Z := 0x1A.
Definition ezspConfigAddressTableSize : Z := 0x05.

Definition emberNetworkUp : Z := 0x90.
Definition emberNetworkDown : Z := 0x91.

Definition isCallbackFrameID (id : Z) : bool :=
  (id =? ezspTrustCenterJoinHandler) || (id =? ezspIncomingMessageHandler) ||
  (id =? ezspMessageSentHandler) || (id =? ezspStackStatusHandler).

(** [processFrame] of the EZSP layer.  [extended] is the format flag of the
    layer, [hasHandler] tells whether a callback handler is set, and
    [responseChan] maps a frame id to the response channel (capacity 1)
    that a waiting [SendCommand] registered.  The result is the call of the
    handler, if one is made, and the channels afterwards. *)
Definition processFrame (extended hasHandler : bool)
    (responseChan : gmap Z (list (list Z))) (data : list Z)
    : option (Z * list Z) * gmap Z (list (list Z)) :=
  let decoded :=
    if extended then
      if (length data <? 5)%nat then None
      else Some (le16 (nth 3 data 0) (nth 4 data 0), drop 5 data,
                 isCallbackFrameID (le16 (nth 3 data 0) (nth 4 data 0)))
    else
      if (length data <? 3)%nat then None
      else
        let frameControl := nth 1 data 0 in
        Some (nth 2 data 0, drop 3 data, negb (Z.land frameControl 0x04 =? 0)) in
  match decoded with
  | None => (None, responseChan)
  | Some (frameID, params, isCallback) =>
    if isCallback then
      ((if hasHandler then Some (frameID, params) else None), responseChan)
    else
      match responseChan !! frameID with
      | Some ch =>
        if (length ch <? 1)%nat
        then (None, <[frameID := ch ++ [params]]> responseChan)
        else (None, responseChan)
      | None => (None, responseChan)
      end
  end.

(** The check of the status byte that the commands share:
    [len(resp) < 1 || resp[0] != emberSuccess]. *)
Definition statusFailed (resp : list Z) : bool :=
  (length resp <? 1)%nat || negb (nth 0 resp 0 =? emberSuccess).

Definition SetConfigValue (configID value : Z) (e : EZSPLayer)
    : option error * EZSPLayer :=
  let params := [configID; u8 value; u8 (Z.shiftr value 8)] in
  match SendCommand ezspSetConfigurationValue params e with
  | (Err err, e) => (Some err, e)
  | (Ok resp, e) =>
    if statusFailed resp
    then (Some (ErrText "setConfigurationValue failed"), e)
    else (None, e)
  end.

Definition stackConfigs : list (Z * Z) :=
  [(ezspConfigStackProfile, 2);
   (ezspConfigSecurityLevel, 5);
   (ezspConfigMaxEndDeviceChildren, 32);
   (ezspConfigAddressTableSize, 16);
   (ezspConfigSourceRouteTableSize, 16);
   (ezspConfigMaxHops, 30)].

(** [ConfigureStack]: a failed value is logged and the loop goes on. *)
Definition ConfigureStack (e : EZSPLayer) : option error * EZSPLayer :=
  (None,
   fold_left (fun e cfg => snd (SetConfigValue (fst cfg) (snd cfg) e))
             stackConfigs e).

Definition NetworkInit (e : EZSPLayer) : result Z * EZSPLayer :=
  let params := [0x00; 0x00] in
  match SendCommand ezspNetworkInit params e with
  | (Err err, e) => (Err err, e)
  | (Ok resp, e) =>
    if (length resp <? 1)%nat then (Err (ErrText "networkInit response empty"), e)
    else (Ok (nth 0 resp 0), e)
  end.

(** The parameters of [formNetwork]; [extPanID] is the array of eight
    bytes. *)
Definition formNetworkParams (channel panID : Z) (extPanID : list Z) : list Z :=
  extPanID ++
  [u8 panID; u8 (Z.shiftr panID 8)] ++
  [3] ++ [channel] ++ [0x00] ++ [0xFF; 0xFF] ++ [0x00] ++
  [0x00; 0x00; 0x00; 0x00].

Definition FormNetwork (channel panID : Z) (extPanID : list Z) (e : EZSPLayer)
    : option error * EZSPLayer :=
  match SendCommand ezspFormNetwork (formNetworkParams channel panID extPanID) e with
  | (Err err, e) => (Some err, e)
  | (Ok resp, e) =>
    if statusFailed resp then (Some (ErrText "formNetwork failed"), e)
    else (None, e)
  end.

Definition PermitJoining (duration : Z) (e : EZSPLayer) : option error * EZSPLayer :=
  let params := [duration] in
  match SendCommand ezspPermitJoining params e with
  | (Err err, e) => (Some err, e)
  | (Ok resp, e) =>
    if statusFailed resp then (Some (ErrText "permitJoining failed"), e)
    else (None, e)
  end.

Definition GetEUI64 (e : EZSPLayer) : result (list Z) * EZSPLayer :=
  match SendCommand ezspGetEUI64 [] e with
  | (Err err, e) => (Err err, e)
  | (Ok resp, e) =>
    if (length resp <? 8)%nat then (Err (ErrText "EUI64 response too short"), e)
    else (Ok (take 8 resp), e)
  end.

End EZSPOps.

(** * Controller session, continued *)

Module ControllerOps.

Import Device Controller.

(** [updateDeviceStateFromZCL]: the new state mapping of the device. *)
Definition updateDeviceStateFromZCL (kd : KnownDevice) (clusterID : Z)
    (message : list Z) : KnownDevice :=
  if (length message <? 3)%nat then kd
  else
    let frameControl := nth 0 message 0 in
    let cmdID := nth 2 message 0 in
    let payload := drop 3 message in
    let isGlobal := Z.land frameControl 0x01 =? 0 in
    if isGlobal && (cmdID =? ZCL.zclGlobalReadAttributesResponse) then
      let attrs := ZCL.ParseReadAttributesResponse payload in
      if clusterID =? ZCL.zclClusterOnOff then
        match attrs !! ZCL.zclAttrOnOff with
        | Some (v0 :: _) =>
            setKdState
              (<["state"%string := AString (boolToOnOff (negb (v0 =? 0)))]> (State kd))
              kd
        | _ => kd
        end
      else if clusterID =? ZCL.zclClusterLevelControl then
        match attrs !! ZCL.zclAttrCurrentLevel with
        | Some (v0 :: _) =>
            setKdState (<["brightness"%string := AInt v0]> (State kd)) kd
        | _ => kd
        end
      else kd
    else kd.

(** The loop [for _, kd := range c.devices] of [handleIncomingMessage],
    which stops at the first device with the sender's node id.  Go ranges
    over a map in no fixed order: [order] is the order of the keys in this
    run. *)
Fixpoint updateFirstMatch (order : list string) (sender clusterID : Z)
    (message : list Z) (devs : gmap string KnownDevice) : gmap string KnownDevice :=
  match order with
  | [] => devs
  | ieee :: rest =>
    match devs !! ieee with
    | Some kd =>
      if NodeID kd =? sender
      then <[ieee := updateDeviceStateFromZCL kd clusterID message]> devs
      else updateFirstMatch rest sender clusterID message devs
    | None => updateFirstMatch rest sender clusterID message devs
    end
  end.

Definition handleIncomingMessage (order : list string) (data : list Z)
    (c : Controller) : Controller :=
  if (length data <? 19)%nat then c
  else
    let clusterID := le16 (nth 3 data 0) (nth 4 data 0) in
    let sender := le16 (nth 14 data 0) (nth 15 data 0) in
    let msgLen := nth 18 data 0 in
    if Z.of_nat (length data) <? 19 + msgLen then c
    else
      let message := take (Z.to_nat msgLen) (drop 19 data) in
      setDevices (updateFirstMatch order sender clusterID message (devices c)) c.

(** [handleStackStatus] only logs. *)
Definition handleStackStatus (data : list Z) (c : Controller) : Controller := c.

Definition handleCallback (order : list string) (frameID : Z) (data : list Z)
    (now : Z) (c : Controller) : Controller :=
  if frameID =? EZSP.ezspTrustCenterJoinHandler then handleTrustCenterJoin data now c
  else if frameID =? EZSP.ezspIncomingMessageHandler
  then handleIncomingMessage order data c
  else if frameID =? EZSP.ezspStackStatusHandler then handleStackStatus data c
  else c.

(** [GetDevice]; the loop after a failed lookup ranges over the keys in
    the order [order] and compares each key with [id]. *)
Definition GetDevice (order : list string) (id : string) (c : Controller)
    : result Device :=
  match devices c !! id with
  | Some kd => Ok (knownToDevice id kd)
  | None =>
    match find (fun ieee => String.eqb ieee id) order with
    | Some ieee =>
      match devices c !! ieee with
      | Some d => Ok (knownToDevice ieee d)
      | None => Err ErrNotFound
      end
    | None => Err ErrNotFound
    end
  end.

Definition RenameDevice (id newName : string) (c : Controller) : option error :=
  Some ErrUnsupported.

Definition RemoveDevice (id : string) (force : bool) (c : Controller)
    : option error * Controller :=
  match devices c !! id with
  | None => (Some ErrNotFound, c)
  | Some _ => (None, setDevices (delete id (devices c)) c)
  end.

(** [GetDeviceState]; a failed read is logged, and the sleep of 200 ms
    passes with no callback in this run. *)
Definition GetDeviceState (id : string) (c : Controller)
    : result (gmap string any) * Controller :=
  match devices c !! id with
  | None => (Err ErrNotFound, c)
  | Some kd =>
    let '(readOnOff, n) :=
      ZCL.BuildReadAttributesCommand [ZCL.zclAttrOnOff] (zclSeqCounter c) in
    let c := setZclSeqCounter n c in
    let '(_, e) :=
      EZSP.SendUnicast (NodeID kd) ZCL.zclProfileHA ZCL.zclClusterOnOff 1
                       (Endpoint kd) readOnOff (ezsp c) in
    let c := setEzsp e c in
    (Ok (State kd), c)
  end.

Definition PermitJoin (enable : bool) (duration : Z) (c : Controller)
    : option error * Controller :=
  let dur :=
    if enable then
      if (duration <=? 0) || (254 <? duration) then 254 else u8 duration
    else 0 in
  let '(err, e) := EZSPOps.PermitJoining dur (ezsp c) in
  (err, setEzsp e c).

Definition setConnected (b : bool) (c : Controller) : Controller :=
  {| ezsp := ezsp c; devices := devices c; subscribers := subscribers c;
     connected := b; zclSeqCounter := zclSeqCounter c |}.

Definition IsConnected (c : Controller) : bool :=
  connected c && ASHLoop.IsConnected (EZSP.ash (ezsp c)).

(** [Close]: the flag, then the layers, then the port.  The stop channel
    of the EZSP layer has no field here: what closing it does to a waiting
    command is the [Stopped] of the reply script. *)
Definition Close (c : Controller) : Controller :=
  let c := setConnected false c in
  let a := ASHLoop.Close (EZSP.ash (ezsp c)) in
  let a := ASH.setSerial (serialClose (ASH.serial a)) a in
  setEzsp (EZSP.setAsh a (ezsp c)) c.

(** [initStack]; [rndPan] is the value of [rand.Intn(0xFFFE)] and
    [extPanID] the eight values of [rand.Intn(256)]. *)
Definition initStack (rndPan : Z) (extPanID : list Z) (c : Controller)
    : option error * Controller :=
  match EZSP.NegotiateVersion (ezsp c) with
  | (Err err, e) => (Some err, setEzsp e c)
  | (Ok _, e) =>
    match EZSPOps.ConfigureStack e with
    | (Some err, e) => (Some err, setEzsp e c)
    | (None, e) =>
      match EZSPOps.NetworkInit e with
      | (Err err, e) => (Some err, setEzsp e c)
      | (Ok status, e) =>
        if (status =? EZSP.emberSuccess) || (status =? EZSPOps.emberNetworkUp)
        then (None, setEzsp e c)
        else
          let channel := 15 in
          let panID := u16 (rndPan + 1) in
          match EZSPOps.FormNetwork channel panID extPanID e with
          | (Some err, e) => (Some (ErrWrap "form network" err), setEzsp e c)
          | (None, e) => (None, setEzsp e c)
          end
      end
    end
  end.

End ControllerOps.

(** * Auxiliary definitions of the further proofs *)

Module Aux2.

Import ASH.

(** The payload that a DATA frame on the wire carries: the frame without
    its flag, unstuffed, without the CRC and the control byte. *)
Definition dataPayload (frame : list Z) : list Z :=
  let raw := ashUnstuff (take (length frame - 1) frame) in
  drop 1 (take (length raw - 2) raw).

(** The two CRC bytes that the senders append to [raw]. *)
Definition crcBytes (raw : list Z) : list Z :=
  [u8 (Z.shiftr (crcCCITT raw) 8); u8 (Z.land (crcCCITT raw) 0xFF)].

(** What [processFrame] does with a decoded frame [payload], once the
    length and the CRC are checked. *)
Definition dispatch (payload : list Z) (a : ASHLayer) : option ASHLayer :=
  let control := nth 0 payload 0 in
  if control =? ashFrameRSTACK then Some (handleRSTACK a)
  else if control =? ashFrameERROR then Some a
  else if Z.land control 0x80 =? ashFrameData then handleData payload a
  else if Z.land control 0xE0 =? ashFrameACK then Some (handleACK control a)
  else if Z.land control 0xE0 =? ashFrameNAK then Some (handleNAK control a)
  else Some a.

(** The numbers of the layer are 3-bit, the pending table is keyed by 3-bit
    numbers, and the queue to EZSP is within its capacity. *)
Definition linkOk (a : ASHLayer) : Prop :=
  0 <= sendSeq a < 8 /\ 0 <= recvSeq a < 8 /\
  (forall k, is_Some (pending a !! k) -> 0 <= k < 8) /\
  (length (recvChan a) <= 16)%nat.

End Aux2.

(** * Byte stuffing *)

Section Stuffing.

Import ASH Aux.

Lemma stuff_fold (data : list Z) : forall out,
  fold_left stuffStep data out = out ++ flat_map stuffByte data.
Proof.
  induction data as [|b rest IH]; intros out; simpl.
  - now rewrite app_nil_r.
  - rewrite IH. unfold stuffStep, stuffByte.
    destruct (isReserved b); now rewrite <- app_assoc.
Qed.

Lemma ashStuff_flat_map (data : list Z) : ashStuff data = flat_map stuffByte data.
Proof. unfold ashStuff. now rewrite stuff_fold. Qed.

Lemma ashStuff_cons (b : Z) (rest : list Z) :
  ashStuff (b :: rest) = stuffByte b ++ ashStuff rest.
Proof. now rewrite !ashStuff_flat_map. Qed.

Lemma isReserved_cases (b : Z) :
  isReserved b = true <->
  b = 0x7E \/ b = 0x7D \/ b = 0x11 \/ b = 0x13 \/ b = 0x18 \/ b = 0x1A.
Proof.
  unfold isReserved, ashFlagByte, ashEscapeByte, ashXON, ashXOFF,
    ashSubstitute, ashCancelByte.
  rewrite !orb_true_iff, !Z.eqb_eq. tauto.
Qed.

Lemma unstuff_fold (data : list Z) : forall out escaped,
  fold_left unstuffStep data (out, escaped) =
  (out ++ fst (fold_left unstuffStep data ([], escaped)),
   snd (fold_left unstuffStep data ([], escaped))).
Proof.
  induction data as [|b rest IH]; intros out escaped; simpl.
  - now rewrite app_nil_r.
  - destruct escaped; simpl.
    + rewrite IH, (IH [_]). simpl. now rewrite <- app_assoc.
    + destruct (b =? ashEscapeByte).
      * apply IH.
      * rewrite IH, (IH [_]). simpl. now rewrite <- app_assoc.
Qed.

Lemma ashUnstuff_escape (b : Z) (rest : list Z) :
  ashUnstuff (ashEscapeByte :: Z.lxor b ashFlipBit :: rest) = b :: ashUnstuff rest.
Proof.
  unfold ashUnstuff. simpl. rewrite unstuff_fold. simpl.
  now rewrite Z.lxor_assoc, Z.lxor_nilpotent, Z.lxor_0_r.
Qed.

Lemma ashUnstuff_plain (b : Z) (rest : list Z) :
  b <> ashEscapeByte -> ashUnstuff (b :: rest) = b :: ashUnstuff rest.
Proof.
  intros H. apply Z.eqb_neq in H. unfold ashUnstuff. simpl. rewrite H.
  now rewrite unstuff_fold.
Qed.

Lemma ashUnstuff_stuffByte (b : Z) (rest : list Z) :
  ashUnstuff (stuffByte b ++ rest) = b :: ashUnstuff rest.
Proof.
  unfold stuffByte. destruct (isReserved b) eqn:R; simpl.
  - apply ashUnstuff_escape.
  - apply ashUnstuff_plain. intros ->. discriminate R.
Qed.

Lemma unstuff_stuff (data : list Z) : ashUnstuff (ashStuff data) = data.
Proof.
  induction data as [|b rest IH]; [reflexivity|].
  now rewrite ashStuff_cons, ashUnstuff_stuffByte, IH.
Qed.

(** C4. Unstuffing a stuffed byte sequence gives the sequence back.  Stuffing
    replaces a reserved byte (one of 7E, 7D, 11, 13, 18, 1A) by 7D followed by
    the byte XOR 20 and copies every other byte; unstuffing turns 7D followed
    by a byte back into that byte XOR 20. *)
Theorem stuff_unstuff_roundtrip :
  (forall data, ashUnstuff (ashStuff data) = data) /\
  (forall b, isReserved b = true <->
     b = 0x7E \/ b = 0x7D \/ b = 0x11 \/ b = 0x13 \/ b = 0x18 \/ b = 0x1A) /\
  (forall b rest, isReserved b = true ->
     ashStuff (b :: rest) = 0x7D :: Z.lxor b 0x20 :: ashStuff rest) /\
  (forall b rest, isReserved b = false ->
     ashStuff (b :: rest) = b :: ashStuff rest) /\
  (forall b rest,
     ashUnstuff (0x7D :: Z.lxor b 0x20 :: rest) = b :: ashUnstuff rest).
Proof.
  split; [exact unstuff_stuff|].
  split; [exact isReserved_cases|].
  split; [|split].
  - intros b rest R. rewrite ashStuff_cons. unfold stuffByte. now rewrite R.
  - intros b rest R. rewrite ashStuff_cons. unfold stuffByte. now rewrite R.
  - exact ashUnstuff_escape.
Qed.

Lemma stuff_unstuff_roundtrip_witness :
  ashUnstuff (ashStuff [0x7E; 0x01; 0x11; 0x7D]) = [0x7E; 0x01; 0x11; 0x7D] /\
  ashStuff [0x7E; 0x01] = [0x7D; 0x5E; 0x01] /\
  ashStuff [0x01; 0x7E] = [0x01; 0x7D; 0x5E].
Proof.
  destruct stuff_unstuff_roundtrip as (Hround & _ & Hres & Hplain & _).
  split; [apply Hround|]. split.
  - apply (Hres 0x7E [0x01]). reflexivity.
  - apply (Hplain 0x01 [0x7E]). reflexivity.
Defined.








End Stuffing.

(** * Sequence numbers *)

Section SequenceNumbers.

Import ASH.

Lemma ashSeqLessThan_spec (a b : Z) :
  ashSeqLessThan a b = true <-> 1 <= (b - a) mod 8 <= 4.
Proof.
  unfold ashSeqLessThan, u8.
  change 0x07 with (Z.ones 3). rewrite !Z.land_ones by lia.
  change (2 ^ 3) with 8.
  assert (((b mod 8 - a mod 8) mod 256) mod 8 = (b - a) mod 8) as ->.
  { rewrite Z.mod_mod_divide by (now exists 32).
    now rewrite <- Zminus_mod. }
  rewrite andb_true_iff, Z.ltb_lt, Z.leb_le. lia.
Qed.

Lemma three_bit_cases (a : Z) : 0 <= a < 8 ->
  a = 0 \/ a = 1 \/ a = 2 \/ a = 3 \/ a = 4 \/ a = 5 \/ a = 6 \/ a = 7.
Proof. lia. Qed.

Lemma seq_trichotomy (a b : Z) : 0 <= a < 8 -> 0 <= b < 8 ->
  (xorb (xorb (ashSeqLessThan a b) (ashSeqLessThan b a)) (a =? b) = true
   <-> (b - a) mod 8 <> 4).
Proof.
  intros Ha Hb.
  apply three_bit_cases in Ha. apply three_bit_cases in Hb.
  destruct Ha as [->|[->|[->|[->|[->|[->|[->| ->]]]]]]];
  destruct Hb as [->|[->|[->|[->|[->|[->|[->| ->]]]]]]];
  vm_compute; split; congruence.
Qed.

Lemma seq_opposite (a b : Z) : (b - a) mod 8 = 4 ->
  ashSeqLessThan a b = true /\ ashSeqLessThan b a = true.
Proof.
  intros H. rewrite !ashSeqLessThan_spec. split; [lia|].
  assert ((a - b) mod 8 = 4); [|lia].
  replace (a - b) with (-(b - a)) by lia.
  rewrite Z.mod_opp_l_nz; lia.
Qed.

(** C3, as the specification states it, fails: 0 and 4 are different, and
    each is below the other, so two of the three alternatives hold. *)
Lemma seq_lt_xor_fails_at_distance_4 :
  ~ (forall a b, 0 <= a < 8 -> 0 <= b < 8 ->
       xorb (xorb (ashSeqLessThan a b) (ashSeqLessThan b a)) (a =? b) = true).
Proof.
  intros H. specialize (H 0 4 ltac:(lia) ltac:(lia)). vm_compute in H.
  discriminate H.
Qed.

(** C3 (amended). [ashSeqLessThan a b] holds exactly when [(b - a) mod 8] is
    1, 2, 3 or 4.  For 3-bit [a] and [b], exactly one of [a < b], [b < a]
    and [a = b] holds unless the two are at distance 4; at distance 4 each
    is below the other.  7 is below 0, 0 is below 4, and 0 is not below 5. *)
Theorem ashSeqLessThan_window (a b : Z) :
  (ashSeqLessThan a b = true <-> 1 <= (b - a) mod 8 <= 4) /\
  (0 <= a < 8 -> 0 <= b < 8 ->
     (xorb (xorb (ashSeqLessThan a b) (ashSeqLessThan b a)) (a =? b) = true
      <-> (b - a) mod 8 <> 4)) /\
  ((b - a) mod 8 = 4 ->
     ashSeqLessThan a b = true /\ ashSeqLessThan b a = true) /\
  ashSeqLessThan 7 0 = true /\
  ashSeqLessThan 0 4 = true /\
  ashSeqLessThan 0 5 = false.
Proof.
  split; [apply ashSeqLessThan_spec|].
  split; [apply seq_trichotomy|].
  split; [apply seq_opposite|].
  repeat split.
Qed.

Lemma ashSeqLessThan_window_witness :
  (0 <= 6 < 8) /\ (0 <= 1 < 8) /\
  (xorb (xorb (ashSeqLessThan 6 1) (ashSeqLessThan 1 6)) (6 =? 1) = true
   <-> (1 - 6) mod 8 <> 4) /\
  (ashSeqLessThan 2 6 = true /\ ashSeqLessThan 6 2 = true).
Proof.
  split; [lia|]. split; [lia|]. split.
  - apply (proj1 (proj2 (ashSeqLessThan_window 6 1))); lia.
  - apply (proj1 (proj2 (proj2 (ashSeqLessThan_window 2 6)))). reflexivity.
Defined.

End SequenceNumbers.

(** * CRC *)

Section CRC.

Import ASH Spec Aux.

Lemma land_bit15 (c : Z) : negb (Z.land c 0x8000 =? 0) = Z.testbit c 15.
Proof.
  change 0x8000 with (2 ^ 15).
  destruct (Z.testbit c 15) eqn:T.
  - apply negb_true_iff, Z.eqb_neq. intros H.
    apply (f_equal (fun z => Z.testbit z 15)) in H.
    rewrite Z.land_spec, T, Z.pow2_bits_true, Z.bits_0 in H by lia. discriminate.
  - apply negb_false_iff, Z.eqb_eq, Z.bits_inj'. intros n Hn.
    rewrite Z.land_spec, Z.bits_0.
    destruct (Z.eq_dec n 15) as [->|Hne].
    + now rewrite T.
    + rewrite Z.pow2_bits_false by lia. apply andb_false_r.
Qed.

Lemma crcShift_crcBit (c : Z) : crcShift c = crcBit c false.
Proof.
  unfold crcShift, crcBit, u16.
  rewrite land_bit15, xorb_false_r, Z.shiftl_mul_pow2 by lia.
  now rewrite (Z.mul_comm c).
Qed.

Lemma shl16_bits (x n : Z) :
  Z.testbit (shl16 x) n = (n <? 16) && Z.testbit x (n - 1).
Proof.
  unfold shl16, u16. change 65536 with (2 ^ 16).
  rewrite Z.testbit_mod_pow2 by lia.
  replace (2 * x) with (x * 2 ^ 1) by lia.
  now rewrite Z.mul_pow2_bits by lia.
Qed.

Lemma shl16_lxor (c x : Z) : shl16 (Z.lxor c x) = Z.lxor (shl16 c) (shl16 x).
Proof.
  apply Z.bits_inj'. intros n Hn.
  rewrite Z.lxor_spec, !shl16_bits, Z.lxor_spec.
  now destruct (n <? 16).
Qed.

(** Shifting a register into which [x] was folded: the top bit of [x] acts
    as a message bit, the rest of [x] moves up with the register. *)
Lemma crcShift_lxor (c x : Z) :
  crcShift (Z.lxor c x) = Z.lxor (crcBit c (Z.testbit x 15)) (shl16 x).
Proof.
  rewrite crcShift_crcBit. unfold crcBit.
  rewrite xorb_false_r, Z.lxor_spec.
  change ((2 * Z.lxor c x) mod 2 ^ 16) with (shl16 (Z.lxor c x)).
  change ((2 * c) mod 2 ^ 16) with (shl16 c).
  rewrite shl16_lxor.
  destruct (xorb (Z.testbit c 15) (Z.testbit x 15)); [|reflexivity].
  rewrite !Z.lxor_assoc. f_equal. apply Z.lxor_comm.
Qed.

Lemma crcShift_iter (n : nat) : forall c x,
  Nat.iter n crcShift (Z.lxor c x) =
  Z.lxor (fold_left crcBit (topBits n x) c) (Nat.iter n shl16 x).
Proof.
  induction n as [|n IH]; intros c x; [reflexivity|].
  rewrite !Nat.iter_succ_r, crcShift_lxor, IH. reflexivity.
Qed.

Lemma shl16_iter (n : nat) (y : Z) :
  Nat.iter n shl16 (u16 y) = u16 (2 ^ Z.of_nat n * y).
Proof.
  induction n as [|n IH].
  - simpl. now rewrite Z.mul_1_l.
  - rewrite Nat.iter_succ, IH. unfold shl16, u16.
    rewrite Z.mul_mod_idemp_r by lia. f_equal.
    rewrite Nat2Z.inj_succ, Z.pow_succ_r by lia. ring.
Qed.

Lemma topBits_byte (b : Z) : topBits 8 (u16 (Z.shiftl b 8)) = bitsMSB b.
Proof.
  assert (H : forall k : nat, (k < 8)%nat ->
            Z.testbit (Nat.iter k shl16 (u16 (Z.shiftl b 8))) 15 =
            Z.testbit b (7 - Z.of_nat k)).
  { intros k Hk. rewrite shl16_iter. unfold u16. change 65536 with (2 ^ 16).
    rewrite Z.mod_pow2_bits_low, Z.shiftl_mul_pow2 by lia.
    replace (2 ^ Z.of_nat k * (b * 2 ^ 8)) with (b * 2 ^ (8 + Z.of_nat k))
      by (rewrite Z.pow_add_r by lia; ring).
    rewrite Z.mul_pow2_bits by lia. f_equal. lia. }
  unfold bitsMSB. cbn [topBits map].
  repeat (f_equal; [match goal with
    | |- Z.testbit _ 15 = Z.testbit b ?i =>
        exact (H (Z.to_nat (7 - i)) ltac:(simpl; lia))
    end|]).
  f_equal. exact (H 7%nat ltac:(lia)).
Qed.

Lemma crcByte_bits (c b : Z) : crcByte c b = fold_left crcBit (bitsMSB b) c.
Proof.
  unfold crcByte. rewrite crcShift_iter, topBits_byte, shl16_iter.
  unfold u16. rewrite Z.shiftl_mul_pow2 by lia.
  replace (2 ^ Z.of_nat 8 * (b * 2 ^ 8)) with (b * 65536)
    by (change (2 ^ Z.of_nat 8) with 256; change (2 ^ 8) with 256; lia).
  now rewrite Z.mod_mul, Z.lxor_0_r by lia.
Qed.

Lemma crc_fold (data : list Z) : forall c,
  fold_left crcByte data c = fold_left crcBit (flat_map bitsMSB data) c.
Proof.
  induction data as [|b rest IH]; intros c; [reflexivity|].
  cbn [fold_left flat_map]. now rewrite fold_left_app, IH, crcByte_bits.
Qed.

(** C5, as the specification states it, fails: on the empty input the loop
    does not run and the initial value comes back. *)
Lemma crcCCITT_empty_is_not_1D0F : crcCCITT [] <> 0x1D0F.
Proof. vm_compute. discriminate. Qed.

(** C5 (amended). [crcCCITT] is the CRC with initial value FFFF and
    polynomial 1021 over the bits of its input, most significant bit first.
    On the empty input it returns FFFF; 1D0F is its value on the two bytes
    00 00; on the nine digits 1 to 9 it returns the check value 29B1. *)
Theorem crcCCITT_is_bitwise_ccitt :
  (forall data, crcCCITT data = crcBitwise data) /\
  crcCCITT [] = 0xFFFF /\
  crcCCITT [0x00; 0x00] = 0x1D0F /\
  crcCCITT [0x31; 0x32; 0x33; 0x34; 0x35; 0x36; 0x37; 0x38; 0x39] = 0x29B1.
Proof.
  split; [intros data; apply crc_fold|].
  repeat split; vm_compute; reflexivity.
Qed.

Lemma u16_lxor (a b : Z) : u16 (Z.lxor a b) = Z.lxor (u16 a) (u16 b).
Proof.
  unfold u16. change 65536 with (2 ^ 16).
  apply Z.bits_inj'. intros n Hn.
  rewrite Z.lxor_spec, !Z.testbit_mod_pow2, Z.lxor_spec by lia.
  now destruct (n <? 16).
Qed.

Lemma u16_idem (a : Z) : u16 (u16 a) = u16 a.
Proof. unfold u16. apply Z.mod_mod. lia. Qed.

Lemma crcShift_u16 (c : Z) : u16 (crcShift c) = crcShift c.
Proof.
  unfold crcShift. destruct (negb _).
  - now rewrite u16_lxor, u16_idem.
  - apply u16_idem.
Qed.

Lemma crcByte_u16 (c b : Z) : u16 (crcByte c b) = crcByte c b.
Proof. unfold crcByte. cbn [Nat.iter nat_rect]. apply crcShift_u16. Qed.

Lemma crc_fold_u16 (data : list Z) : forall c,
  u16 c = c -> u16 (fold_left crcByte data c) = fold_left crcByte data c.
Proof.
  induction data as [|b rest IH]; intros c Hc; [exact Hc|].
  cbn [fold_left]. apply IH, crcByte_u16.
Qed.

Lemma crcCCITT_range (data : list Z) : 0 <= crcCCITT data < 65536.
Proof.
  pose proof (crc_fold_u16 data 0xFFFF eq_refl) as H.
  change (fold_left crcByte data 0xFFFF) with (crcCCITT data) in H.
  rewrite <- H. apply Z.mod_pos_bound. lia.
Qed.

Lemma high_low_disjoint (h l : Z) : Z.land (h * 2 ^ 8) (l mod 2 ^ 8) = 0.
Proof.
  apply Z.bits_inj'. intros n Hn.
  rewrite Z.land_spec, Z.bits_0, Z.testbit_mod_pow2, Z.mul_pow2_bits by lia.
  destruct (Z.ltb_spec n 8); [|apply andb_false_r].
  now rewrite Z.testbit_neg_r by lia.
Qed.

(** The two CRC bytes of a frame, read back big-endian, give the CRC. *)
Lemma crc_bytes_join (c : Z) : 0 <= c < 65536 ->
  Z.lor (u16 (Z.shiftl (u8 (Z.shiftr c 8)) 8)) (u8 (Z.land c 0xFF)) = c.
Proof.
  intros Hc. unfold u16, u8.
  change 0xFF with (Z.ones 8). rewrite Z.land_ones by lia.
  rewrite Z.shiftr_div_pow2, Z.shiftl_mul_pow2 by lia.
  assert (0 <= c / 2 ^ 8 < 256)
    by (split; [apply Z.div_pos|apply Z.div_lt_upper_bound]; lia).
  assert (0 <= c mod 2 ^ 8 < 256) by (apply Z.mod_pos_bound; lia).
  rewrite (Z.mod_small (c / 2 ^ 8)), (Z.mod_small (c / 2 ^ 8 * 2 ^ 8)),
    (Z.mod_small (c mod 2 ^ 8)) by lia.
  rewrite <- Z.lxor_lor, <- Z.add_nocarry_lxor by apply high_low_disjoint.
  pose proof (Z.div_mod c (2 ^ 8)). lia.
Qed.

End CRC.

(** * ASH receive path *)

Section Receive.

Import ASH.

Lemma seq_next (x : Z) : Z.land (u8 (x + 1)) 0x07 = (x + 1) mod 8.
Proof.
  unfold u8. change 0x07 with (Z.ones 3). rewrite Z.land_ones by lia.
  apply Z.mod_mod_divide. now exists 32.
Qed.

Lemma land7_small (x : Z) : 0 <= x < 8 -> Z.land x 0x07 = x.
Proof.
  intros H. change 0x07 with (Z.ones 3). rewrite Z.land_ones by lia.
  apply Z.mod_small. exact H.
Qed.

Lemma handleData_in_sequence (control : Z) (ezspData : list Z) (a : ASHLayer) :
  Z.land (Z.shiftr control 4) 0x07 = recvSeq a ->
  exists a',
    handleData (control :: ezspData) a = Some a' /\
    recvSeq a' = (recvSeq a + 1) mod 8 /\
    tx (serial a') =
      tx (serial a) ++ [controlFrame (Z.lor ashFrameACK ((recvSeq a + 1) mod 8))] /\
    recvChan a' =
      if (length (recvChan a) <? 16)%nat then recvChan a ++ [ezspData]
      else recvChan a.
Proof.
  intros H. unfold handleData. cbn [recvSeq setPending].
  rewrite H, Z.eqb_refl.
  eexists. split; [reflexivity|].
  unfold offerRecv, sendACK, write, serialWrite, recvChanCap.
  cbn -[controlFrame Nat.ltb Z.land u8].
  rewrite seq_next.
  assert (Hs : 0 <= (recvSeq a + 1) mod 8 < 8) by (apply Z.mod_pos_bound; lia).
  rewrite (land7_small _ Hs).
  destruct (length (recvChan a) <? 16)%nat; cbn -[controlFrame]; auto.
Qed.

Lemma handleData_out_of_sequence (control : Z) (ezspData : list Z) (a : ASHLayer) :
  0 <= recvSeq a < 8 ->
  Z.land (Z.shiftr control 4) 0x07 <> recvSeq a ->
  exists a',
    handleData (control :: ezspData) a = Some a' /\
    recvSeq a' = recvSeq a /\
    tx (serial a') =
      tx (serial a) ++ [controlFrame (Z.lor ashFrameNAK (recvSeq a))] /\
    recvChan a' = recvChan a.
Proof.
  intros Hr H. unfold handleData. cbn [recvSeq setPending].
  apply Z.eqb_neq in H. rewrite H.
  eexists. split; [reflexivity|].
  unfold sendNAK, write, serialWrite. cbn -[controlFrame Z.land].
  now rewrite (land7_small _ Hr).
Qed.

(** The expected sequence number stays a 3-bit number. *)
Lemma handleData_keeps_recvSeq_3bit (payload : list Z) (a a' : ASHLayer) :
  0 <= recvSeq a < 8 ->
  handleData payload a = Some a' ->
  0 <= recvSeq a' < 8.
Proof.
  intros Hr. destruct payload as [|control ezspData]; [discriminate|].
  destruct (Z.eq_dec (Z.land (Z.shiftr control 4) 0x07) (recvSeq a)) as [Heq|Hne].
  - destruct (handleData_in_sequence control ezspData a Heq) as (a1 & -> & H1 & _).
    intros [= <-]. rewrite H1. apply Z.mod_pos_bound. lia.
  - destruct (handleData_out_of_sequence control ezspData a Hr Hne)
      as (a1 & -> & H1 & _).
    intros [= <-]. rewrite H1. exact Hr.
Qed.

(** A frame with a good CRC whose control byte has bit 7 clear is decoded
    by [processFrame] and handed to [handleData]. *)
Lemma processFrame_data (control : Z) (data : list Z) (a : ASHLayer) :
  0 <= control < 0x80 ->
  let crc := crcCCITT (control :: data) in
  processFrame
    (ashStuff ((control :: data) ++ [u8 (Z.shiftr crc 8); u8 (Z.land crc 0xFF)])) a
  = handleData (control :: data) a.
Proof.
  intros Hc crc. unfold processFrame.
  rewrite unstuff_stuff, length_app. cbn [length].
  destruct (Nat.ltb_spec (S (length data) + 2) 3); [lia|].
  replace (S (length data) + 2 - 2)%nat with (length (control :: data)) by (simpl; lia).
  rewrite take_app_length.
  replace (S (length data) + 2 - 1)%nat with (length (control :: data) + 1)%nat
    by (simpl; lia).
  rewrite <- (Nat.add_0_r (length (control :: data))) at 1.
  rewrite !app_nth2_plus. cbn [nth].
  fold crc. rewrite crc_bytes_join by apply crcCCITT_range.
  rewrite Z.eqb_refl. cbn [negb].
  assert (Hland : Z.land control 0x80 = 0).
  { change 0x80 with (2 ^ 7). apply Z.bits_inj'. intros n Hn.
    rewrite Z.land_spec, Z.bits_0.
    destruct (Z.eq_dec n 7) as [->|Hne].
    - rewrite (Z.bits_above_log2 control 7); [reflexivity|lia|].
      destruct (Z.eq_dec control 0) as [->|]; [simpl; lia|].
      apply Z.log2_lt_pow2; lia.
    - rewrite Z.pow2_bits_false by lia. apply andb_false_r. }
  unfold ashFrameRSTACK, ashFrameERROR, ashFrameData.
  destruct (Z.eqb_spec control 0xC1); [lia|].
  destruct (Z.eqb_spec control 0xC2); [lia|].
  now rewrite Hland.
Qed.

(** C2, as the specification states it, fails: the frame below is in
    sequence (frame number 0, expected 0), the sequence number advances,
    and yet the payload is not handed on, for the queue already holds
    sixteen payloads. *)
Lemma full_queue_drops_in_sequence_payload :
  Z.land (Z.shiftr 0x00 4) 0x07 = recvSeq Scenario.linkQueueFull /\
  exists a',
    handleData [0x00; 0x01; 0x80; 0x19; 0x90] Scenario.linkQueueFull = Some a' /\
    recvSeq a' = 1 /\
    recvChan a' = recvChan Scenario.linkQueueFull /\
    ~ In [0x01; 0x80; 0x19; 0x90] (recvChan a').
Proof.
  split; [reflexivity|].
  eexists. split; [vm_compute; reflexivity|].
  split; [reflexivity|]. split; [reflexivity|].
  cbn. intros H. repeat (destruct H as [H|H]; [discriminate H|]). exact H.
Qed.

(** C2 (amended). A DATA frame whose frame number is the expected one
    advances the expected number by one modulo 8, has an ACK frame carrying
    the advanced number sent, and has its payload without the control byte
    put on the queue to EZSP if the queue holds fewer than sixteen payloads
    (on a full queue the payload is dropped).  Any other DATA frame has a
    NAK frame carrying the unchanged expected number sent and changes
    neither that number nor the queue. *)
Theorem handleData_acks_expected_frame (control : Z) (ezspData : list Z)
    (a : ASHLayer) :
  0 <= recvSeq a < 8 ->
  let frmNum := Z.land (Z.shiftr control 4) 0x07 in
  exists a',
    handleData (control :: ezspData) a = Some a' /\
    (frmNum = recvSeq a ->
       recvSeq a' = (recvSeq a + 1) mod 8 /\
       tx (serial a') =
         tx (serial a) ++
         [controlFrame (Z.lor ashFrameACK ((recvSeq a + 1) mod 8))] /\
       recvChan a' =
         if (length (recvChan a) <? 16)%nat then recvChan a ++ [ezspData]
         else recvChan a) /\
    (frmNum <> recvSeq a ->
       recvSeq a' = recvSeq a /\
       tx (serial a') =
         tx (serial a) ++ [controlFrame (Z.lor ashFrameNAK (recvSeq a))] /\
       recvChan a' = recvChan a).
Proof.
  intros Hr frmNum.
  destruct (Z.eq_dec frmNum (recvSeq a)) as [Heq|Hne].
  - destruct (handleData_in_sequence control ezspData a Heq) as (a' & H & H').
    exists a'. split; [exact H|]. split; [intros _; exact H'|].
    intros Hne. now destruct Hne.
  - destruct (handleData_out_of_sequence control ezspData a Hr Hne)
      as (a' & H & H').
    exists a'. split; [exact H|]. split; [|intros _; exact H'].
    intros Heq. now destruct Hne.
Qed.

(** With 3 expected, frame 5 is answered by a NAK for 3 (control byte A3)
    and nothing goes upstream. *)
Lemma handleData_acks_expected_frame_witness :
  0 <= recvSeq Scenario.linkExpecting3 < 8 /\
  exists a',
    handleData [0x50; 0x01; 0x80; 0x19; 0x90] Scenario.linkExpecting3 = Some a' /\
    recvSeq a' = 3 /\
    tx (serial a') = [controlFrame 0xA3] /\
    recvChan a' = [].
Proof.
  split; [change (0 <= 3 < 8); lia|].
  destruct (handleData_acks_expected_frame 0x50 [0x01; 0x80; 0x19; 0x90]
              Scenario.linkExpecting3) as (a' & H & _ & Hnak).
  - change (0 <= 3 < 8). lia.
  - exists a'. split; [exact H|]. apply Hnak. vm_compute. discriminate.
Defined.

(** The same exchange on the wire: the frame arrives stuffed and with its
    CRC, and the NAK leaves as A3 with CRC 6D 6F and the flag. *)
Example out_of_sequence_on_the_wire :
  exists a',
    processFrame
      (ashStuff ([0x50; 0x01; 0x80; 0x19; 0x90] ++
                 [u8 (Z.shiftr (crcCCITT [0x50; 0x01; 0x80; 0x19; 0x90]) 8);
                  u8 (Z.land (crcCCITT [0x50; 0x01; 0x80; 0x19; 0x90]) 0xFF)]))
      Scenario.linkExpecting3 = Some a' /\
    tx (serial a') = [controlFrame 0xA3] /\
    recvSeq a' = 3 /\ recvChan a' = [].
Proof. eexists. split; [vm_compute; reflexivity|]. repeat split. Qed.

End Receive.

(** * Read Attributes Response *)

Section ReadAttributes.

Import ZCL.

Lemma nth_shift (pre d : list Z) (k : nat) :
  nth (length pre + k) (pre ++ d) 0 = nth k d 0.
Proof. induction pre; simpl; auto. Qed.

Lemma drop_shift (pre d : list Z) (k : nat) :
  drop (length pre + k) (pre ++ d) = drop k d.
Proof. induction pre; simpl; auto. Qed.

(** The loop only looks at the data from its offset on. *)
Lemma parseLoop_shift (pre d : list Z) (fuel : nat) : forall off result,
  parseLoop fuel (pre ++ d) (length pre + off) result = parseLoop fuel d off result.
Proof.
  induction fuel as [|fuel IH]; intros off result; [reflexivity|].
  cbn [parseLoop].
  rewrite <- !Nat.add_assoc, !nth_shift, !drop_shift, !IH, length_app.
  rewrite !Nat2Z.inj_add.
  replace (length pre + (off + 4) <=? length pre + length d)%nat
    with (off + 4 <=? length d)%nat
    by (destruct (Nat.leb_spec (off + 4) (length d));
        destruct (Nat.leb_spec (length pre + (off + 4)) (length pre + length d)); lia).
  replace (length pre + length d <=? length pre + (off + (2 + 1)))%nat
    with (length d <=? off + (2 + 1))%nat
    by (destruct (Nat.leb_spec (length d) (off + (2 + 1)));
        destruct (Nat.leb_spec (length pre + length d) (length pre + (off + (2 + 1)))); lia).
  set (n := zclDataTypeLength _ _).
  replace (Z.of_nat (length pre) + Z.of_nat (length d) <?
           Z.of_nat (length pre) + (Z.of_nat off + (Z.of_nat 2 + (Z.of_nat 1 + Z.of_nat 1))) + n)
    with (Z.of_nat (length d) <? Z.of_nat off + (Z.of_nat 2 + (Z.of_nat 1 + Z.of_nat 1)) + n)
    by (symmetry; destruct (Z.ltb_spec (Z.of_nat (length d))
             (Z.of_nat off + (Z.of_nat 2 + (Z.of_nat 1 + Z.of_nat 1)) + n));
        [apply Z.ltb_lt|apply Z.ltb_ge]; lia).
  reflexivity.
Qed.

Lemma parseLoop_prefix (pre d : list Z) (fuel k : nat) result :
  k = length pre ->
  parseLoop fuel (pre ++ d) k result = parseLoop fuel d 0 result.
Proof. intros ->. rewrite <- (Nat.add_0_r (length pre)). apply parseLoop_shift. Qed.

(** Fuel that covers the bytes left is enough: the loop never runs out. *)
Lemma parseLoop_fuel (d : list Z) (f1 : nat) : forall f2 off result,
  (length d <= off + f1)%nat -> (length d <= off + f2)%nat ->
  parseLoop f1 d off result = parseLoop f2 d off result.
Proof.
  induction f1 as [|f1 IH]; intros f2 off result H1 H2.
  - destruct f2 as [|f2]; [reflexivity|]. cbn [parseLoop].
    destruct (Nat.leb_spec (off + 4) (length d)); [lia|reflexivity].
  - destruct f2 as [|f2].
    + cbn [parseLoop].
      destruct (Nat.leb_spec (off + 4) (length d)); [lia|reflexivity].
    + cbn [parseLoop].
      destruct (off + 4 <=? length d)%nat; [|reflexivity].
      destruct (negb _); [apply IH; lia|].
      destruct (length d <=? _)%nat; [reflexivity|].
      set (n := zclDataTypeLength _ _).
      destruct (Z.leb_spec n 0); [reflexivity|]. cbn [orb].
      destruct (Z.of_nat (length d) <? _); [reflexivity|].
      apply IH; lia.
Qed.

(** The entries decoded from an offset on are added to those decoded
    before, and win over them. *)
Lemma parseLoop_acc (d : list Z) (fuel : nat) : forall off (result : gmap Z (list Z)),
  parseLoop fuel d off result = parseLoop fuel d off ∅ ∪ result.
Proof.
  induction fuel as [|fuel IH]; intros off result.
  - cbn [parseLoop]. now rewrite (left_id_L ∅ (∪)).
  - cbn [parseLoop].
    destruct (off + 4 <=? length d)%nat; [|now rewrite (left_id_L ∅ (∪))].
    destruct (negb _); [apply IH|].
    destruct (length d <=? _)%nat; [now rewrite (left_id_L ∅ (∪))|].
    destruct (_ || _); [now rewrite (left_id_L ∅ (∪))|].
    rewrite IH, (IH _ (<[_:=_]> ∅)).
    rewrite <- (assoc_L (∪)). f_equal.
    now rewrite insert_empty, <- insert_union_singleton_l.
Qed.

Lemma parse_short (data : list Z) :
  (length data < 4)%nat -> ParseReadAttributesResponse data = ∅.
Proof.
  intros H. unfold ParseReadAttributesResponse.
  destruct (length data) eqn:E; [reflexivity|]. cbn [parseLoop].
  rewrite E. destruct (Nat.leb_spec (0 + 4) (S n)); [lia|reflexivity].
Qed.

(** One iteration of the loop on an entry at offset 0. *)
Lemma parseLoop_entry (lo hi st : Z) (tl : list Z) (fuel : nat) result :
  parseLoop (S fuel) (lo :: hi :: st :: tl) 0 result =
  match tl with
  | [] => result
  | ty :: rest =>
    if negb (st =? 0) then parseLoop fuel (lo :: hi :: st :: tl) 3 result
    else
      let n := zclDataTypeLength ty rest in
      if (n <=? 0) || (Z.of_nat (length rest) <? n) then result
      else parseLoop fuel (lo :: hi :: st :: tl) (4 + Z.to_nat n)
             (<[le16 lo hi := take (Z.to_nat n) rest]> result)
  end.
Proof.
  destruct tl as [|ty rest]; [reflexivity|].
  cbn [parseLoop].
  change (length (lo :: hi :: st :: ty :: rest)) with (S (S (S (S (length rest))))).
  change (0 + 4 <=? S (S (S (S (length rest)))))%nat with true.
  cbn [nth Nat.add Nat.leb drop skipn].
  destruct (negb (st =? 0)); [reflexivity|].
  cbv zeta. change (drop 0 rest) with rest.
  replace (Z.of_nat (S (S (S (S (length rest))))) <?
           Z.of_nat 4 + zclDataTypeLength ty rest)
    with (Z.of_nat (length rest) <? zclDataTypeLength ty rest); [reflexivity|].
  destruct (Z.ltb_spec (Z.of_nat (length rest)) (zclDataTypeLength ty rest));
    symmetry; [apply Z.ltb_lt|apply Z.ltb_ge]; lia.
Qed.

Lemma parse_skip (lo hi st : Z) (rest : list Z) :
  st <> 0 ->
  ParseReadAttributesResponse (lo :: hi :: st :: rest) =
  ParseReadAttributesResponse rest.
Proof.
  intros Hst. unfold ParseReadAttributesResponse.
  change (length (lo :: hi :: st :: rest)) with (S (S (S (length rest)))).
  rewrite parseLoop_entry.
  destruct rest as [|x rest]; [reflexivity|].
  apply Z.eqb_neq in Hst. rewrite Hst. cbn [negb].
  etransitivity;
    [apply (parseLoop_prefix [lo; hi; st] (x :: rest)); reflexivity|].
  apply parseLoop_fuel; simpl; lia.
Qed.

Lemma parse_value (lo hi ty : Z) (rest : list Z) :
  let n := zclDataTypeLength ty rest in
  0 < n -> n <= Z.of_nat (length rest) ->
  ParseReadAttributesResponse (lo :: hi :: 0 :: ty :: rest) =
  ParseReadAttributesResponse (drop (Z.to_nat n) rest) ∪
    {[ le16 lo hi := take (Z.to_nat n) rest ]}.
Proof.
  intros n Hpos Hlen. unfold ParseReadAttributesResponse.
  change (length (lo :: hi :: 0 :: ty :: rest)) with (S (S (S (S (length rest))))).
  rewrite parseLoop_entry. cbn [Z.eqb negb]. cbv zeta. fold n.
  destruct (Z.leb_spec n 0); [lia|]. cbn [orb].
  destruct (Z.ltb_spec (Z.of_nat (length rest)) n); [lia|].
  rewrite parseLoop_acc, insert_empty.
  f_equal.
  replace (lo :: hi :: 0 :: ty :: rest)
    with ((lo :: hi :: 0 :: ty :: take (Z.to_nat n) rest) ++ drop (Z.to_nat n) rest)
    by (simpl; now rewrite take_drop).
  rewrite parseLoop_prefix by (simpl; rewrite length_take; lia).
  apply parseLoop_fuel; rewrite length_drop; lia.
Qed.

Lemma parse_stop (lo hi ty : Z) (rest : list Z) :
  let n := zclDataTypeLength ty rest in
  n <= 0 \/ Z.of_nat (length rest) < n ->
  ParseReadAttributesResponse (lo :: hi :: 0 :: ty :: rest) = ∅.
Proof.
  intros n H. unfold ParseReadAttributesResponse.
  change (length (lo :: hi :: 0 :: ty :: rest)) with (S (S (S (S (length rest))))).
  rewrite parseLoop_entry. cbn [Z.eqb negb]. cbv zeta. fold n.
  destruct (Z.leb_spec n 0); [reflexivity|]. cbn [orb].
  destruct (Z.ltb_spec (Z.of_nat (length rest)) n); [reflexivity|lia].
Qed.

Lemma zclDataTypeLength_unknown (ty : Z) (d : list Z) :
  ~ In ty [0x10; 0x20; 0x21; 0x22; 0x23; 0x28; 0x29; 0x30; 0x31; 0x42] ->
  zclDataTypeLength ty d = -1.
Proof.
  intros H. unfold zclDataTypeLength.
  repeat match goal with
         | |- context [?x =? ?y] =>
             destruct (Z.eqb_spec x y); [exfalso; apply H; subst; simpl; tauto|]
         end.
  reflexivity.
Qed.

(** C9. The parser returns the empty mapping on fewer than four bytes; an
    entry with a status other than 0 is skipped and gives no value; an entry
    with status 0 and a type of width [n] that fits gives the value of [n]
    bytes under its little-endian attribute id, and parsing goes on after
    these [n] bytes (later entries win over earlier ones); an entry with an
    unknown type, or with fewer bytes left than its type needs, ends the
    parsing with nothing added.  The widths are 1, 2, 3 or 4 bytes by type,
    and for type 42 one length byte plus as many bytes as it says.  The
    input 00 00 00 10 01 gives the mapping of 0 to the single byte 01. *)
Theorem parse_read_attributes_response_entries :
  (forall data, (length data < 4)%nat -> ParseReadAttributesResponse data = ∅) /\
  (forall lo hi st rest, st <> 0 ->
     ParseReadAttributesResponse (lo :: hi :: st :: rest) =
     ParseReadAttributesResponse rest) /\
  (forall lo hi ty rest,
     let n := zclDataTypeLength ty rest in
     0 < n -> n <= Z.of_nat (length rest) ->
     ParseReadAttributesResponse (lo :: hi :: 0 :: ty :: rest) =
     ParseReadAttributesResponse (drop (Z.to_nat n) rest) ∪
       {[ le16 lo hi := take (Z.to_nat n) rest ]}) /\
  (forall lo hi ty rest,
     let n := zclDataTypeLength ty rest in
     n <= 0 \/ Z.of_nat (length rest) < n ->
     ParseReadAttributesResponse (lo :: hi :: 0 :: ty :: rest) = ∅) /\
  (forall d,
     zclDataTypeLength 0x10 d = 1 /\ zclDataTypeLength 0x20 d = 1 /\
     zclDataTypeLength 0x28 d = 1 /\ zclDataTypeLength 0x30 d = 1 /\
     zclDataTypeLength 0x21 d = 2 /\ zclDataTypeLength 0x29 d = 2 /\
     zclDataTypeLength 0x31 d = 2 /\ zclDataTypeLength 0x22 d = 3 /\
     zclDataTypeLength 0x23 d = 4) /\
  (forall len d, zclDataTypeLength 0x42 (len :: d) = 1 + len) /\
  zclDataTypeLength 0x42 [] = -1 /\
  (forall ty d,
     ~ In ty [0x10; 0x20; 0x21; 0x22; 0x23; 0x28; 0x29; 0x30; 0x31; 0x42] ->
     zclDataTypeLength ty d = -1) /\
  ParseReadAttributesResponse [0x00; 0x00; 0x00; 0x10; 0x01] = {[ 0x0000 := [0x01] ]}.
Proof.
  split; [exact parse_short|].
  split; [exact parse_skip|].
  split; [intros lo hi ty rest n; apply parse_value|].
  split; [intros lo hi ty rest n; apply parse_stop|].
  split; [intros d; repeat split|].
  split; [reflexivity|].
  split; [reflexivity|].
  split; [exact zclDataTypeLength_unknown|].
  vm_compute. reflexivity.
Qed.

(** A failed read of attribute 1, then attribute 5 as a uint16, then an
    octet string cut short: only attribute 5 is returned. *)
Lemma parse_read_attributes_response_entries_witness :
  ParseReadAttributesResponse
    [0x01; 0x00; 0x86; 0x05; 0x00; 0x00; 0x21; 0x34; 0x12;
     0x07; 0x00; 0x00; 0x42; 0x09; 0xAA] =
  {[ 0x0005 := [0x34; 0x12] ]}.
Proof.
  destruct parse_read_attributes_response_entries
    as (_ & Hskip & Hvalue & Hstop & _).
  rewrite (Hskip 0x01 0x00 0x86 _ ltac:(lia)).
  rewrite (Hvalue 0x05 0x00 0x21 [0x34; 0x12; 0x07; 0x00; 0x00; 0x42; 0x09; 0xAA]
             ltac:(change (0 < 2); lia) ltac:(change (2 <= 8); lia)).
  change (drop _ _) with [0x07; 0x00; 0x00; 0x42; 0x09; 0xAA].
  rewrite (Hstop 0x07 0x00 0x42 [0x09; 0xAA] ltac:(right; change (2 < 10); lia)).
  vm_compute. reflexivity.
Defined.

End ReadAttributes.

(** * EZSP commands and version negotiation *)

Section Commands.

Import EZSP.




(** A reset of the link would show on the port as the cancel byte followed
    by the RST frame. *)
Lemma sendRST_writes (a : ASH.ASHLayer) :
  tx (ASH.serial (snd (ASH.sendRST a))) =
  if closed (ASH.serial a)
  then tx (ASH.serial a) ++ [[ASH.ashCancelByte]]
  else tx (ASH.serial a) ++ [[ASH.ashCancelByte]; ASH.controlFrame ASH.ashFrameRST].
Proof.
  unfold ASH.sendRST, ASH.write, serialWrite. cbn -[ASH.controlFrame].
  destruct (closed (ASH.serial a)); cbn -[ASH.controlFrame];
    [reflexivity|now rewrite <- app_assoc].
Qed.

End Commands.

(** * Controller: device state *)

Section DeviceState.

Import EZSP Device Controller.




(** The number 200 as an integer, as a float64 and as a JSON number. *)
Example brightness_200_forms :
  brightnessLevel (AInt 200) = Some 200 /\
  brightnessLevel (AFloat64 (S754_finite false 7036874417766400 (-45))) = Some 200 /\
  brightnessLevel (AJsonNumber "200") = Some 200 /\
  brightnessLevel (AString "200") = None.
Proof. repeat split. Qed.



Lemma invalid_state_string (c : Controller) (id : string) (kd : KnownDevice)
    (state : gmap string any) (strVal : string) :
  devices c !! id = Some kd ->
  state !! "state"%string = Some (AString strVal) ->
  ToUpper strVal <> "ON"%string ->
  ToUpper strVal <> "OFF"%string ->
  ToUpper strVal <> "TOGGLE"%string ->
  exists err,
    SetDeviceState id state c = (Err err, c) /\
    errorsIs err ErrValidation = true.
Proof.
  intros Hkd Hs H1 H2 H3.
  unfold SetDeviceState, setOnOff, onOffCommand. rewrite Hkd, Hs.
  apply String.eqb_neq in H1, H2, H3. rewrite H1, H2, H3.
  eexists. split; reflexivity.
Qed.

Lemma non_string_state_skipped (c : Controller) (id : string) (kd : KnownDevice)
    (state : gmap string any) (v : any) :
  state !! "state"%string = Some v ->
  (forall s, v <> AString s) ->
  setOnOff id kd state c = (Ok kd, c) /\
  SetDeviceState id state c = SetDeviceState id (delete "state"%string state) c.
Proof.
  intros Hs Hv. unfold SetDeviceState, setOnOff, setBrightness.
  rewrite Hs, lookup_delete_eq, lookup_delete_ne by discriminate.
  destruct v; try (split; reflexivity). now destruct (Hv s).
Qed.

(** C7, as the specification states it, fails: the light is in the table,
    the value under [state] is the number 5, and the call succeeds, with
    the unchanged (empty) state of the light and nothing sent. *)
Lemma numeric_state_is_not_rejected :
  devices (Scenario.home []) !! "88:77:66:55:44:33:22:11"%string
    = Some Scenario.light /\
  SetDeviceState "88:77:66:55:44:33:22:11" {[ "state"%string := AInt 5 ]}
    (Scenario.home []) = (Ok ∅, Scenario.home []).
Proof. split; vm_compute; reflexivity. Qed.

(** C7 (amended). For a device in the table: when the value under [state]
    is a string that is none of ON, OFF and TOGGLE in any letter case, the
    call fails with the Validation kind and the controller is left as it
    was, so nothing is sent.  When the value under [state] is not a string,
    the key is passed over: the On/Off block sends nothing and raises no
    error, and the call goes on as if the key were absent. *)
Theorem set_device_state_rejects_unknown_state_strings (c : Controller)
    (id : string) (kd : KnownDevice) (state : gmap string any) (v : any) :
  devices c !! id = Some kd ->
  state !! "state"%string = Some v ->
  (forall strVal, v = AString strVal ->
     ToUpper strVal <> "ON"%string ->
     ToUpper strVal <> "OFF"%string ->
     ToUpper strVal <> "TOGGLE"%string ->
     exists err,
       SetDeviceState id state c = (Err err, c) /\
       errorsIs err ErrValidation = true) /\
  ((forall s, v <> AString s) ->
     setOnOff id kd state c = (Ok kd, c) /\
     SetDeviceState id state c =
       SetDeviceState id (delete "state"%string state) c).
Proof.
  intros Hkd Hs. split.
  - intros strVal -> H1 H2 H3.
    exact (invalid_state_string c id kd state strVal Hkd Hs H1 H2 H3).
  - intros Hv. exact (non_string_state_skipped c id kd state v Hs Hv).
Qed.

(** The state [dim] is refused with the Validation kind. *)
Lemma set_device_state_rejects_unknown_state_strings_witness :
  exists err,
    SetDeviceState "88:77:66:55:44:33:22:11" {[ "state"%string := AString "dim" ]}
      (Scenario.home []) = (Err err, Scenario.home []) /\
    errorsIs err ErrValidation = true.
Proof.
  apply (proj1 (set_device_state_rejects_unknown_state_strings
                  (Scenario.home []) "88:77:66:55:44:33:22:11" Scenario.light
                  {[ "state"%string := AString "dim" ]} (AString "dim")
                  ltac:(vm_compute; reflexivity) ltac:(vm_compute; reflexivity))
               "dim"%string eq_refl);
    vm_compute; discriminate.
Defined.

End DeviceState.

(** * Controller: join and leave *)

Section JoinLeave.

Import Device Controller Aux.






End JoinLeave.
